(** * napd-local-control: pump selection, fault latch and dashboard snapshot

    A shallow embedding of [napd_local_control/application.py] and
    [napd_local_control/dashboard.py].  Python floats are IEEE binary64
    numbers, modelled by Rocq's primitive floats; Python dicts are stdpp
    finite maps; the objects the application mutates in place are threaded
    through a small state-and-exception monad. *)

From Stdlib Require Import ZArith Bool List Ascii String DecimalString Lia Btauto.
From Stdlib Require Import PrimFloat SpecFloat FloatOps FloatAxioms.
From stdpp Require Import gmap strings.

Import ListNotations.
#[local] Set Warnings "-inexact-float".
Local Open Scope Z_scope.
Local Open Scope string_scope.
Local Open Scope list_scope.

(** ** Python values *)

Module Py.

(** The exceptions that the modelled code can raise. *)
Inductive Exn :=
| TypeError | ValueError | OverflowError | AttributeError | UnboundLocalError.

Inductive Result (A : Type) :=
| Ok (a : A)
| Raise (e : Exn).
Arguments Ok {A} a.
Arguments Raise {A} e.

(** A value as a tag, a dictionary entry or a keyword argument can hold it.
    [VObj] stands for any other object (a list, a dict, ...): one that
    [float()] rejects with a TypeError and that supports no arithmetic or
    ordering; it is described by what [str()] and [bool()] give on it. *)
Inductive Val :=
| VNone
| VBool (b : bool)
| VInt (n : Z)
| VFloat (x : float)
| VStr (s : string)
| VObj (repr : string) (truth : bool).

(** What the interpreter provides and this repository does not define:
    parsing a string with [float()], printing a float with [str()] and
    [datetime.isoformat()].  Timestamps are clock readings in [Z]. *)
Class Runtime := {
  float_of_str : string -> option float;
  str_of_float : float -> string;
  isoformat : Z -> string
}.

(** [float(n)] for an int: the nearest binary64 number, ties to even;
    the interpreter raises OverflowError when that is out of range. *)
Definition float_of_Z (n : Z) : float :=
  SF2Prim (binary_normalize prec emax n 0 false).

Definition float_of_int (n : Z) : Result float :=
  let x := float_of_Z n in
  if PrimFloat.is_infinity x then Raise OverflowError else Ok x.

Definition float_of_bool (b : bool) : float :=
  if b then 1%float else 0%float.

(** The builtin [float(value)]. *)
Definition to_float `{Runtime} (v : Val) : Result float :=
  match v with
  | VNone => Raise TypeError
  | VBool b => Ok (float_of_bool b)
  | VInt n => float_of_int n
  | VFloat x => Ok x
  | VStr s => match float_of_str s with Some x => Ok x | None => Raise ValueError end
  | VObj _ _ => Raise TypeError
  end.

(** Decimal digits of an int, as [str(n)] prints them. *)
Definition str_of_Z (n : Z) : string :=
  NilZero.string_of_int (Z.to_int n).

(** The builtin [str(value)]. *)
Definition to_str `{Runtime} (v : Val) : string :=
  match v with
  | VNone => "None"
  | VBool true => "True"
  | VBool false => "False"
  | VInt n => str_of_Z n
  | VFloat x => str_of_float x
  | VStr s => s
  | VObj repr _ => repr
  end.

(** Truth value, as [if v] and [not v] test it. *)
Definition truthy (v : Val) : bool :=
  match v with
  | VNone => false
  | VBool b => b
  | VInt n => negb (Z.eqb n 0)
  | VFloat x => negb (PrimFloat.eqb x 0%float)
  | VStr s => negb (String.eqb s "")
  | VObj _ t => t
  end.

(** [v == s] for a string literal [s]. *)
Definition eq_str (v : Val) (s : string) : bool :=
  match v with
  | VStr t => String.eqb t s
  | _ => false
  end.

Definition is_none (v : Val) : bool :=
  match v with VNone => true | _ => false end.

(** [math.isfinite]. *)
Definition isfinite (x : float) : bool :=
  negb (PrimFloat.is_nan x || PrimFloat.is_infinity x).

(** [str.isspace] on one ASCII character. *)
Definition is_space (c : ascii) : bool :=
  let n := N_of_ascii c in
  ((9 <=? n) && (n <=? 13) || (28 <=? n) && (n <=? 32))%N.

Fixpoint lstrip (s : string) : string :=
  match s with
  | String c r => if is_space c then lstrip r else s
  | EmptyString => EmptyString
  end.

Fixpoint rstrip (s : string) : string :=
  match s with
  | String c r =>
      match rstrip r with
      | EmptyString => if is_space c then EmptyString else String c EmptyString
      | r' => String c r'
      end
  | EmptyString => EmptyString
  end.

(** [s.strip()] and [s.lower()] on ASCII text. *)
Definition strip (s : string) : string := rstrip (lstrip s).

Definition lower_ascii (c : ascii) : ascii :=
  let n := N_of_ascii c in
  if ((65 <=? n) && (n <=? 90))%N then ascii_of_N (n + 32) else c.

Fixpoint lower (s : string) : string :=
  match s with
  | String c r => String (lower_ascii c) (lower r)
  | EmptyString => EmptyString
  end.

(** [v > 0], as the fault LED test compares an output level with zero. *)
Definition gt_zero (v : Val) : Result bool :=
  match v with
  | VBool b => Ok b
  | VInt n => Ok (Z.ltb 0 n)
  | VFloat x => Ok (PrimFloat.ltb 0 x)
  | _ => Raise TypeError
  end.

Fixpoint repeat_str (s : string) (n : nat) : string :=
  match n with
  | O => EmptyString
  | S n' => String.append s (repeat_str s n')
  end.

(** [v * k] for an int literal [k]. *)
Definition mul_int (v : Val) (k : Z) : Result Val :=
  match v with
  | VBool b => Ok (VInt ((if b then 1 else 0) * k))
  | VInt n => Ok (VInt (n * k))
  | VFloat x => Ok (VFloat (PrimFloat.mul x (float_of_Z k)))
  | VStr s => Ok (VStr (repeat_str s (Z.to_nat k)))
  | _ => Raise TypeError
  end.

(** [x / v] for a float [x]; the callers only divide by a truthy [v]. *)
Definition truediv (x : float) (v : Val) : Result float :=
  match v with
  | VBool b => Ok (PrimFloat.div x (float_of_bool b))
  | VInt n =>
      match float_of_int n with
      | Ok y => Ok (PrimFloat.div x y)
      | Raise e => Raise e
      end
  | VFloat y => Ok (PrimFloat.div x y)
  | _ => Raise TypeError
  end.

(** The builtin [sum] on floats: additions from the left, starting at 0,
    as CPython computes it up to 3.11 (from 3.12 on the builtin also
    carries a compensation for the rounding of the partial sums). *)
Definition sum (l : list float) : float :=
  fold_left PrimFloat.add l 0%float.

(** [m * 2^e * 100] rounded to an integer, ties to even. *)
Definition scaled_hundredths (m : positive) (e : Z) : Z :=
  let n := Z.pos m * 100 in
  if Z.leb 0 e then n * 2 ^ e
  else
    let d := 2 ^ (- e) in
    let q := n / d in
    match Z.compare (2 * (n mod d)) d with
    | Lt => q
    | Gt => q + 1
    | Eq => if Z.even q then q else q + 1
    end.

(** The builtin [round(x, 2)]: the decimal with two places nearest to [x]
    (ties to even), then the binary64 number nearest to that decimal. *)
Definition round2 (x : float) : float :=
  match Prim2SF x with
  | S754_finite s m e =>
      match scaled_hundredths m e with
      | Z.pos q =>
          SF2Prim (SFdiv prec emax (S754_finite s q 0) (S754_finite false 100 0))
      | _ => SF2Prim (S754_zero s)
      end
  | _ => x
  end.

End Py.

Import Py.

(** ** A state and exception monad

    A method of an object that is mutated in place takes the object's
    state and returns the (possibly changed) state with either a value or
    the exception that escaped; what was mutated before the exception
    stays mutated. *)

Definition M (S A : Type) : Type := S -> Result A * S.

Definition ret {S A} (a : A) : M S A := fun s => (Ok a, s).

Definition throw {S A} (e : Exn) : M S A := fun s => (Raise e, s).

Definition bind {S A B} (m : M S A) (k : A -> M S B) : M S B :=
  fun s => match m s with
           | (Ok a, s') => k a s'
           | (Raise e, s') => (Raise e, s')
           end.

Definition get {S} : M S S := fun s => (Ok s, s).

Definition modify {S} (f : S -> S) : M S unit := fun s => (Ok tt, f s).

(** [try: m except Exception: pass]. *)
Definition try_except {S} (m : M S unit) : M S unit :=
  fun s => match m s with
           | (Ok _, s') => (Ok tt, s')
           | (Raise _, s') => (Ok tt, s')
           end.

(** A pure computation that may raise. *)
Definition lift_result {S A} (r : Result A) : M S A := fun s => (r, s).

Declare Scope py_scope.
Delimit Scope py_scope with py.
Notation "'let!' x ':=' m 'in' k" := (bind m (fun x => k))
  (at level 10, x name, m at level 100, k at level 200) : py_scope.
Notation "m ';;;' k" := (bind m (fun _ => k))
  (at level 100, k at level 200, right associativity) : py_scope.
Local Open Scope py_scope.

(** [changed |= m]: the right-hand side is always evaluated. *)
Definition or_update {S} (changed : bool) (m : M S bool) : M S bool :=
  let! c := m in ret (changed || c).

(** ** dashboard.py: DashboardData *)

Record DashboardData := {
  target_rate : float;
  flow_rate : float;
  pump_state : string;
  pump2_target_rate : float;
  pump2_flow_rate : float;
  pump2_pump_state : string;
  battery_voltage : float;
  battery_percentage : float;
  panel_power : float;
  battery_ah : float;
  tank_level_mm : float;
  tank_level_percent : float;
  skid_flow : float;
  skid_pressure : float;
  timestamp : Z;
  system_status : string;
  faults_hh_pressure : bool;
  faults_ll_tank_level : bool
}.

(** [DashboardData.__init__], with the clock reading [now]. *)
Definition DashboardData_init (now : Z) : DashboardData := {|
  target_rate := 0; flow_rate := 0; pump_state := "standby";
  pump2_target_rate := 0; pump2_flow_rate := 0; pump2_pump_state := "standby";
  battery_voltage := 0; battery_percentage := 0; panel_power := 0; battery_ah := 0;
  tank_level_mm := 0; tank_level_percent := 0;
  skid_flow := 0; skid_pressure := 0;
  timestamp := now; system_status := "running";
  faults_hh_pressure := false; faults_ll_tank_level := false
|}.

(** The attribute names that [getattr] and [setattr] are called with. *)
Module Attr.
Inductive num :=
| target_rate | flow_rate | pump2_target_rate | pump2_flow_rate
| battery_voltage | battery_percentage | panel_power | battery_ah
| tank_level_mm | tank_level_percent | skid_flow | skid_pressure.
Inductive str := pump_state | pump2_pump_state | system_status.
End Attr.

#[global] Instance num_attr_eq_dec : EqDecision Attr.num.
Proof. solve_decision. Defined.
#[global] Instance str_attr_eq_dec : EqDecision Attr.str.
Proof. solve_decision. Defined.

Definition getattr_num (attr : Attr.num) (d : DashboardData) : float :=
  match attr with
  | Attr.target_rate => target_rate d
  | Attr.flow_rate => flow_rate d
  | Attr.pump2_target_rate => pump2_target_rate d
  | Attr.pump2_flow_rate => pump2_flow_rate d
  | Attr.battery_voltage => battery_voltage d
  | Attr.battery_percentage => battery_percentage d
  | Attr.panel_power => panel_power d
  | Attr.battery_ah => battery_ah d
  | Attr.tank_level_mm => tank_level_mm d
  | Attr.tank_level_percent => tank_level_percent d
  | Attr.skid_flow => skid_flow d
  | Attr.skid_pressure => skid_pressure d
  end.

Definition getattr_str (attr : Attr.str) (d : DashboardData) : string :=
  match attr with
  | Attr.pump_state => pump_state d
  | Attr.pump2_pump_state => pump2_pump_state d
  | Attr.system_status => system_status d
  end.

(** The value of one attribute after an assignment to [attr]. *)
Definition assigned {K A} `{EqDecision K} (attr this : K) (v old : A) : A :=
  if decide (attr = this) then v else old.

Definition setattr_num (attr : Attr.num) (v : float) (d : DashboardData) : DashboardData := {|
  target_rate := assigned attr Attr.target_rate v (target_rate d);
  flow_rate := assigned attr Attr.flow_rate v (flow_rate d);
  pump_state := pump_state d;
  pump2_target_rate := assigned attr Attr.pump2_target_rate v (pump2_target_rate d);
  pump2_flow_rate := assigned attr Attr.pump2_flow_rate v (pump2_flow_rate d);
  pump2_pump_state := pump2_pump_state d;
  battery_voltage := assigned attr Attr.battery_voltage v (battery_voltage d);
  battery_percentage := assigned attr Attr.battery_percentage v (battery_percentage d);
  panel_power := assigned attr Attr.panel_power v (panel_power d);
  battery_ah := assigned attr Attr.battery_ah v (battery_ah d);
  tank_level_mm := assigned attr Attr.tank_level_mm v (tank_level_mm d);
  tank_level_percent := assigned attr Attr.tank_level_percent v (tank_level_percent d);
  skid_flow := assigned attr Attr.skid_flow v (skid_flow d);
  skid_pressure := assigned attr Attr.skid_pressure v (skid_pressure d);
  timestamp := timestamp d;
  system_status := system_status d;
  faults_hh_pressure := faults_hh_pressure d;
  faults_ll_tank_level := faults_ll_tank_level d
|}.

Definition setattr_str (attr : Attr.str) (v : string) (d : DashboardData) : DashboardData := {|
  target_rate := target_rate d;
  flow_rate := flow_rate d;
  pump_state := assigned attr Attr.pump_state v (pump_state d);
  pump2_target_rate := pump2_target_rate d;
  pump2_flow_rate := pump2_flow_rate d;
  pump2_pump_state := assigned attr Attr.pump2_pump_state v (pump2_pump_state d);
  battery_voltage := battery_voltage d;
  battery_percentage := battery_percentage d;
  panel_power := panel_power d;
  battery_ah := battery_ah d;
  tank_level_mm := tank_level_mm d;
  tank_level_percent := tank_level_percent d;
  skid_flow := skid_flow d;
  skid_pressure := skid_pressure d;
  timestamp := timestamp d;
  system_status := assigned attr Attr.system_status v (system_status d);
  faults_hh_pressure := faults_hh_pressure d;
  faults_ll_tank_level := faults_ll_tank_level d
|}.

(** Assignments to [self.faults[...]] and [self.timestamp]. *)
Definition set_faults_hh_pressure (b : bool) (d : DashboardData) : DashboardData := {|
  target_rate := target_rate d; flow_rate := flow_rate d; pump_state := pump_state d;
  pump2_target_rate := pump2_target_rate d; pump2_flow_rate := pump2_flow_rate d;
  pump2_pump_state := pump2_pump_state d;
  battery_voltage := battery_voltage d; battery_percentage := battery_percentage d;
  panel_power := panel_power d; battery_ah := battery_ah d;
  tank_level_mm := tank_level_mm d; tank_level_percent := tank_level_percent d;
  skid_flow := skid_flow d; skid_pressure := skid_pressure d;
  timestamp := timestamp d; system_status := system_status d;
  faults_hh_pressure := b; faults_ll_tank_level := faults_ll_tank_level d
|}.

Definition set_faults_ll_tank_level (b : bool) (d : DashboardData) : DashboardData := {|
  target_rate := target_rate d; flow_rate := flow_rate d; pump_state := pump_state d;
  pump2_target_rate := pump2_target_rate d; pump2_flow_rate := pump2_flow_rate d;
  pump2_pump_state := pump2_pump_state d;
  battery_voltage := battery_voltage d; battery_percentage := battery_percentage d;
  panel_power := panel_power d; battery_ah := battery_ah d;
  tank_level_mm := tank_level_mm d; tank_level_percent := tank_level_percent d;
  skid_flow := skid_flow d; skid_pressure := skid_pressure d;
  timestamp := timestamp d; system_status := system_status d;
  faults_hh_pressure := faults_hh_pressure d; faults_ll_tank_level := b
|}.

Definition set_timestamp (t : Z) (d : DashboardData) : DashboardData := {|
  target_rate := target_rate d; flow_rate := flow_rate d; pump_state := pump_state d;
  pump2_target_rate := pump2_target_rate d; pump2_flow_rate := pump2_flow_rate d;
  pump2_pump_state := pump2_pump_state d;
  battery_voltage := battery_voltage d; battery_percentage := battery_percentage d;
  panel_power := panel_power d; battery_ah := battery_ah d;
  tank_level_mm := tank_level_mm d; tank_level_percent := tank_level_percent d;
  skid_flow := skid_flow d; skid_pressure := skid_pressure d;
  timestamp := t; system_status := system_status d;
  faults_hh_pressure := faults_hh_pressure d;
  faults_ll_tank_level := faults_ll_tank_level d
|}.

(** A keyword argument of [update_data]: a dict, or anything else. *)
Inductive Arg :=
| ADict (d : gmap string Val)
| AVal (v : Val).

(** [section.get(key, default)]; only a dict has [get]. *)
Definition dict_get (section : Arg) (key : string) (default : Val) : Result Val :=
  match section with
  | ADict d => Ok (match d !! key with Some v => v | None => default end)
  | AVal _ => Raise AttributeError
  end.

Section Dashboard.
Context `{RT : Runtime}.

(** [DashboardData.to_dict]. *)
Definition to_dict (d : DashboardData) : gmap string (gmap string Val) :=
  {[ "pump" := {[ "target_rate" := VFloat (target_rate d);
                  "flow_rate" := VFloat (flow_rate d);
                  "pump_state" := VStr (pump_state d) ]};
     "pump2" := {[ "target_rate" := VFloat (pump2_target_rate d);
                   "flow_rate" := VFloat (pump2_flow_rate d);
                   "pump_state" := VStr (pump2_pump_state d) ]};
     "solar" := {[ "battery_voltage" := VFloat (battery_voltage d);
                   "battery_percentage" := VFloat (battery_percentage d);
                   "panel_power" := VFloat (panel_power d);
                   "battery_ah" := VFloat (battery_ah d) ]};
     "tank" := {[ "tank_level_mm" := VFloat (tank_level_mm d);
                  "tank_level_percent" := VFloat (tank_level_percent d) ]};
     "skid" := {[ "skid_flow" := VFloat (skid_flow d);
                  "skid_pressure" := VFloat (skid_pressure d) ]};
     "system" := {[ "timestamp" := VStr (isoformat (timestamp d));
                    "status" := VStr (system_status d) ]};
     "faults" := {[ "hh_pressure" := VBool (faults_hh_pressure d);
                    "ll_tank_level" := VBool (faults_ll_tank_level d) ]} ]}.

(** [DashboardData._to_bool]. *)
Definition _to_bool (value : Val) (default : bool) : bool :=
  match value with
  | VBool b => b
  | VInt n => negb (Z.eqb n 0)
  | VFloat x => negb (PrimFloat.eqb x 0)
  | VStr s =>
      let t := lower (strip s) in
      String.eqb t "true" || String.eqb t "1" || String.eqb t "yes" || String.eqb t "on"
  | _ => default
  end.

(** [DashboardData._update_numeric].  The stored attribute is a float and
    so is [float(value)], hence both [isinstance] tests hold. *)
Definition _update_numeric (attr : Attr.num) (value : Val) (tolerance : float)
  : M DashboardData bool :=
  if is_none value then ret false else
  match to_float value with
  | Raise TypeError | Raise ValueError => ret false
  | Raise e => throw e
  | Ok new_value =>
      let! self := get in
      let current_value := getattr_num attr self in
      if isfinite current_value && isfinite new_value then
        if PrimFloat.leb (PrimFloat.abs (PrimFloat.sub current_value new_value)) tolerance
        then ret false
        else modify (setattr_num attr new_value) ;;; ret true
      else if PrimFloat.eqb current_value new_value then ret false
      else modify (setattr_num attr new_value) ;;; ret true
  end.

(** [DashboardData._update_string]. *)
Definition _update_string (attr : Attr.str) (value : Val) : M DashboardData bool :=
  if is_none value then ret false else
  let new_value := to_str value in
  let! self := get in
  if String.eqb (getattr_str attr self) new_value then ret false
  else modify (setattr_str attr new_value) ;;; ret true.

(** The numeric leaf [section.get(key)] fed to [_update_numeric]. *)
Definition update_numeric_key (section : Arg) (key : string) (attr : Attr.num)
  (tolerance : float) : M DashboardData bool :=
  let! value := lift_result (dict_get section key VNone) in
  _update_numeric attr value tolerance.

(** The string leaf [section.get(key, self.attr)] fed to [_update_string]. *)
Definition update_string_key (section : Arg) (key : string) (attr : Attr.str)
  : M DashboardData bool :=
  let! self := get in
  let! value := lift_result (dict_get section key (VStr (getattr_str attr self))) in
  _update_string attr value.

(** [DashboardData.update_from_dict]; [now] is what [datetime.now()] reads. *)
Definition update_from_dict (data : gmap string Arg) (now : Z) : M DashboardData bool :=
  let changed := false in
  let! changed :=
    match data !! "pump" with
    | Some pump =>
        let! changed := or_update changed (update_numeric_key pump "target_rate" Attr.target_rate 0.05) in
        let! changed := or_update changed (update_numeric_key pump "flow_rate" Attr.flow_rate 0.05) in
        or_update changed (update_string_key pump "pump_state" Attr.pump_state)
    | None => ret changed
    end in
  let! changed :=
    match data !! "pump2" with
    | Some pump2 =>
        let! changed := or_update changed (update_numeric_key pump2 "target_rate" Attr.pump2_target_rate 0.05) in
        let! changed := or_update changed (update_numeric_key pump2 "flow_rate" Attr.pump2_flow_rate 0.05) in
        or_update changed (update_string_key pump2 "pump_state" Attr.pump2_pump_state)
    | None => ret changed
    end in
  let! changed :=
    match data !! "solar" with
    | Some solar =>
        let! changed := or_update changed (update_numeric_key solar "battery_voltage" Attr.battery_voltage 0.1) in
        let! changed := or_update changed (update_numeric_key solar "battery_percentage" Attr.battery_percentage 0.2) in
        let! changed := or_update changed (update_numeric_key solar "panel_power" Attr.panel_power 0.1) in
        or_update changed (update_numeric_key solar "battery_ah" Attr.battery_ah 0.1)
    | None => ret changed
    end in
  let! changed :=
    match data !! "tank" with
    | Some tank =>
        let! changed := or_update changed (update_numeric_key tank "tank_level_mm" Attr.tank_level_mm 1.0) in
        or_update changed (update_numeric_key tank "tank_level_percent" Attr.tank_level_percent 1)
    | None => ret changed
    end in
  let! changed :=
    match data !! "skid" with
    | Some skid =>
        let! changed := or_update changed (update_numeric_key skid "skid_flow" Attr.skid_flow 0.1) in
        or_update changed (update_numeric_key skid "skid_pressure" Attr.skid_pressure 10)
    | None => ret changed
    end in
  let! changed :=
    match data !! "system" with
    | Some system => or_update changed (update_string_key system "status" Attr.system_status)
    | None => ret changed
    end in
  let! changed :=
    match data !! "faults" with
    | Some (ADict faults) =>
        let! changed :=
          match faults !! "hh_pressure" with
          | Some v =>
              let! self := get in
              let new_value := _to_bool v (faults_hh_pressure self) in
              if Bool.eqb (faults_hh_pressure self) new_value then ret changed
              else modify (set_faults_hh_pressure new_value) ;;; ret true
          | None => ret changed
          end in
        match faults !! "ll_tank_level" with
        | Some v =>
            let! self := get in
            let new_value := _to_bool v (faults_ll_tank_level self) in
            if Bool.eqb (faults_ll_tank_level self) new_value then ret changed
            else modify (set_faults_ll_tank_level new_value) ;;; ret true
        | None => ret changed
        end
    | _ => ret changed
    end in
  (if changed then modify (set_timestamp now) else ret tt) ;;;
  ret changed.

(** ** What the program does to the outside

    Socket.IO events sent to one client or to all of them, tag writes and
    output-pin writes, in the order they are issued. *)

Inductive Target :=
| ToSid (sid : string)
| ToAll.

Inductive Payload :=
| Snapshot (d : gmap string (gmap string Val))
| Fields (d : gmap string Val).

Inductive Effect :=
| Emit (to : Target) (event : string) (payload : Payload)
| SetTag (tag : string) (value : Val) (app_key : string)
| SetDO (pin : Z) (value : bool)
| SetAO (pin : Z) (value : Z).

(** The application object with the dashboard interface and the dashboard
    it owns ([self.dashboard] and [self.dashboard_interface.dashboard] are
    one object), and the log of effects. *)
Record World := {
  (* NapdLocalControlApplication *)
  start_first_callback : bool;
  hh_pressure_active : bool;
  ll_tank_level_active : bool;
  last_ai_input : option float;
  (* DashboardInterface *)
  selected_pump : Z;
  (* NAPDDashboard *)
  data : DashboardData;
  connected_clients : gset string;
  (* effects issued so far, oldest first *)
  effects : list Effect
}.

Definition set_start_first_callback (b : bool) (w : World) : World := {|
  start_first_callback := b;
  hh_pressure_active := hh_pressure_active w;
  ll_tank_level_active := ll_tank_level_active w;
  last_ai_input := last_ai_input w;
  selected_pump := selected_pump w;
  data := data w;
  connected_clients := connected_clients w;
  effects := effects w
|}.

Definition set_hh_pressure_active (b : bool) (w : World) : World := {|
  start_first_callback := start_first_callback w;
  hh_pressure_active := b;
  ll_tank_level_active := ll_tank_level_active w;
  last_ai_input := last_ai_input w;
  selected_pump := selected_pump w;
  data := data w;
  connected_clients := connected_clients w;
  effects := effects w
|}.

Definition set_ll_tank_level_active (b : bool) (w : World) : World := {|
  start_first_callback := start_first_callback w;
  hh_pressure_active := hh_pressure_active w;
  ll_tank_level_active := b;
  last_ai_input := last_ai_input w;
  selected_pump := selected_pump w;
  data := data w;
  connected_clients := connected_clients w;
  effects := effects w
|}.

Definition set_last_ai_input (x : option float) (w : World) : World := {|
  start_first_callback := start_first_callback w;
  hh_pressure_active := hh_pressure_active w;
  ll_tank_level_active := ll_tank_level_active w;
  last_ai_input := x;
  selected_pump := selected_pump w;
  data := data w;
  connected_clients := connected_clients w;
  effects := effects w
|}.

Definition set_selected_pump (n : Z) (w : World) : World := {|
  start_first_callback := start_first_callback w;
  hh_pressure_active := hh_pressure_active w;
  ll_tank_level_active := ll_tank_level_active w;
  last_ai_input := last_ai_input w;
  selected_pump := n;
  data := data w;
  connected_clients := connected_clients w;
  effects := effects w
|}.

Definition set_data (d : DashboardData) (w : World) : World := {|
  start_first_callback := start_first_callback w;
  hh_pressure_active := hh_pressure_active w;
  ll_tank_level_active := ll_tank_level_active w;
  last_ai_input := last_ai_input w;
  selected_pump := selected_pump w;
  data := d;
  connected_clients := connected_clients w;
  effects := effects w
|}.

Definition set_connected_clients (c : gset string) (w : World) : World := {|
  start_first_callback := start_first_callback w;
  hh_pressure_active := hh_pressure_active w;
  ll_tank_level_active := ll_tank_level_active w;
  last_ai_input := last_ai_input w;
  selected_pump := selected_pump w;
  data := data w;
  connected_clients := c;
  effects := effects w
|}.

Definition set_effects (l : list Effect) (w : World) : World := {|
  start_first_callback := start_first_callback w;
  hh_pressure_active := hh_pressure_active w;
  ll_tank_level_active := ll_tank_level_active w;
  last_ai_input := last_ai_input w;
  selected_pump := selected_pump w;
  data := data w;
  connected_clients := connected_clients w;
  effects := l
|}.

(** Issue one effect. *)
Definition perform (e : Effect) : M World unit :=
  modify (fun w => set_effects (effects w ++ [e]) w).

(** A method of [self.data] called on the dashboard. *)
Definition on_data {A} (m : M DashboardData A) : M World A :=
  fun w => let '(r, d) := m (data w) in (r, set_data d w).

(** ** dashboard.py: NAPDDashboard *)

(** [handle_connect]; [sid] is [request.sid], and [emit] inside a handler
    answers the client that sent the event. *)
Definition handle_connect (sid : string) : M World unit :=
  modify (fun w => set_connected_clients ({[ sid ]} ∪ connected_clients w) w) ;;;
  let! w := get in
  perform (Emit (ToSid sid) "data_update" (Snapshot (to_dict (data w)))).

(** [handle_disconnect]. *)
Definition handle_disconnect (sid : string) : M World unit :=
  modify (fun w => set_connected_clients (connected_clients w ∖ {[ sid ]}) w).

(** [handle_data_request]. *)
Definition handle_data_request (sid : string) : M World unit :=
  let! w := get in
  perform (Emit (ToSid sid) "data_update" (Snapshot (to_dict (data w)))).

Definition selection_payload (selected : Z) (now : Z) : Payload :=
  Fields {[ "selected_pump" := VInt selected; "timestamp" := VStr (isoformat now) ]}.

(** [handle_pump_selection_request]; the interface reference is set by
    [DashboardInterface.__init__]. *)
Definition handle_pump_selection_request (sid : string) (now : Z) : M World unit :=
  let! w := get in
  perform (Emit (ToSid sid) "pump_selection_changed" (selection_payload (selected_pump w) now)).

(** [broadcast_update]. *)
Definition broadcast_update : M World unit :=
  let! w := get in
  if decide (connected_clients w = ∅) then ret tt
  else perform (Emit ToAll "data_update" (Snapshot (to_dict (data w)))).

(** [handle_pump_state_change], for a message whose payload is an object. *)
Definition handle_pump_state_change (msg : gmap string Val) (now : Z) : M World unit :=
  match msg !! "state" with
  | Some v =>
      on_data (modify (setattr_str Attr.pump_state (to_str v))) ;;;
      on_data (modify (set_timestamp now)) ;;;
      broadcast_update
  | None => ret tt
  end.

(** [handle_toggle_selected_pump]: an acknowledgement only. *)
Definition handle_toggle_selected_pump (sid : string) : M World unit :=
  perform (Emit (ToSid sid) "pump_selection_toggled"
             (Fields {[ "message" := VStr "Pump selection toggle requested" ]})).

(** [update_data], called with the keyword arguments [kwargs]. *)
Definition update_data (kwargs : gmap string Arg) (now : Z) : M World unit :=
  try_except
    (if decide (kwargs = ∅) then ret tt
     else
       let! changed := on_data (update_from_dict kwargs now) in
       if changed then broadcast_update else ret tt).

(** One round of the loop in [_background_updates]. *)
Definition _background_updates (now : Z) : M World unit :=
  on_data (modify (set_timestamp now)) ;;;
  let! w := get in
  if decide (connected_clients w = ∅) then ret tt
  else perform (Emit ToAll "heartbeat"
                  (Fields {[ "timestamp" := VStr (isoformat (timestamp (data w))) ]})).

(** ** dashboard.py: DashboardInterface *)

(** [d[key] = value] when [value is not None]. *)
Definition put_if_given (key : string) (value : Val) (d : gmap string Val) : gmap string Val :=
  if is_none value then d else <[ key := value ]> d.

(** [if d: self.dashboard.update_data(section=d)]. *)
Definition update_section (section : string) (d : gmap string Val) (now : Z) : M World unit :=
  if decide (d = ∅) then ret tt
  else update_data {[ section := ADict d ]} now.

Definition set_faults (hh_pressure ll_tank_level : bool) (now : Z) : M World unit :=
  update_data
    {[ "faults" := ADict {[ "hh_pressure" := VBool hh_pressure;
                            "ll_tank_level" := VBool ll_tank_level ]} ]} now.

Definition clear_faults (now : Z) : M World unit :=
  set_faults false false now.

Definition update_pump_data (target_rate flow_rate pump_state : Val) (now : Z) : M World unit :=
  let pump_data := ∅ in
  let pump_data := put_if_given "target_rate" target_rate pump_data in
  let pump_data := put_if_given "flow_rate" flow_rate pump_data in
  let pump_data := put_if_given "pump_state" pump_state pump_data in
  update_section "pump" pump_data now.

Definition update_pump2_data (target_rate flow_rate pump_state : Val) (now : Z) : M World unit :=
  let pump2_data := ∅ in
  let pump2_data := put_if_given "target_rate" target_rate pump2_data in
  let pump2_data := put_if_given "flow_rate" flow_rate pump2_data in
  let pump2_data := put_if_given "pump_state" pump_state pump2_data in
  update_section "pump2" pump2_data now.

Definition update_solar_data (battery_voltage battery_percentage array_voltage battery_ah : Val)
  (now : Z) : M World unit :=
  let solar_data := ∅ in
  let solar_data := put_if_given "battery_voltage" battery_voltage solar_data in
  let solar_data := put_if_given "battery_percentage" battery_percentage solar_data in
  let solar_data := put_if_given "panel_power" array_voltage solar_data in
  let solar_data := put_if_given "battery_ah" battery_ah solar_data in
  update_section "solar" solar_data now.

Definition update_tank_data (tank_level_mm tank_level_percent : Val) (now : Z) : M World unit :=
  let tank_data := ∅ in
  let tank_data := put_if_given "tank_level_mm" tank_level_mm tank_data in
  let tank_data := put_if_given "tank_level_percent" tank_level_percent tank_data in
  update_section "tank" tank_data now.

Definition update_skid_data (skid_flow skid_pressure : Val) (now : Z) : M World unit :=
  let skid_data := ∅ in
  let skid_data := put_if_given "skid_flow" skid_flow skid_data in
  let skid_data := put_if_given "skid_pressure" skid_pressure skid_data in
  update_section "skid" skid_data now.

Definition toggleSelectedPump (now : Z) : M World Z :=
  modify (fun w => set_selected_pump (if Z.eqb (selected_pump w) 1 then 2 else 1) w) ;;;
  let! w := get in
  perform (Emit ToAll "pump_selection_changed" (selection_payload (selected_pump w) now)) ;;;
  ret (selected_pump w).

Definition getSelectedPump : M World Z :=
  let! w := get in ret (selected_pump w).

Definition setSelectedPump (pump_number : Z) (now : Z) : M World Z :=
  (if Z.eqb pump_number 1 || Z.eqb pump_number 2 then
     modify (set_selected_pump pump_number) ;;;
     perform (Emit ToAll "pump_selection_changed" (selection_payload pump_number now))
   else ret tt) ;;;
  getSelectedPump.

Definition broadcast_pump_selection (now : Z) : M World unit :=
  let! w := get in
  perform (Emit ToAll "pump_selection_changed" (selection_payload (selected_pump w) now)).

Definition update_system_status (status : Val) (now : Z) : M World unit :=
  update_data {[ "system" := ADict {[ "status" := status ]} ]} now.

(** [try: m except Exception: return False]. *)
Definition or_false {S} (m : M S bool) : M S bool :=
  fun s => match m s with
           | (Ok b, s') => (Ok b, s')
           | (Raise _, s') => (Ok false, s')
           end.

Definition updateSelectedTargetRate (value : Val) (now : Z) : M World bool :=
  or_false
    (let! self := get in
     if Z.eqb (selected_pump self) 1 then
       update_pump_data value VNone VNone now ;;; ret true
     else if Z.eqb (selected_pump self) 2 then
       update_pump2_data value VNone VNone now ;;; ret true
     else ret false).

(** [updateSelectedPumpState]; [state not in ["pumping", "standby"]]
    compares with the two literals. *)
Definition updateSelectedPumpState (state : Val) (now : Z) : M World bool :=
  or_false
    (if negb (eq_str state "pumping" || eq_str state "standby") then ret false
     else
       let! self := get in
       if Z.eqb (selected_pump self) 1 then
         update_pump_data VNone VNone state now ;;; ret true
       else if Z.eqb (selected_pump self) 2 then
         update_pump2_data VNone VNone state now ;;; ret true
       else ret false).

End Dashboard.

(** ** application.py: NapdLocalControlApplication *)

(** The configuration values the loop and the callbacks read:
    application keys, output pins, the elements of the solar controller
    array and the truth value of the array object itself. *)
Record Config := {
  pump_1 : string;
  pump_2 : string;
  pump_1_start_LED_pin : Z;
  pump_1_fault_LED_pin : Z;
  pump_2_start_LED_pin : Z;
  pump_2_fault_LED_pin : Z;
  solar_controllers_truth : bool;
  solar_controllers : list string;
  flow_sensor_app : string;
  pressure_sensor_app : string;
  tank_level_app : option string
}.

(** What one tick reads from outside: the tag store ([get_tag] gives
    [None] for an absent tag), the value that the Kalman-filtered
    [get_pot_reading] returns, and the clock. *)
Record Env := {
  get_tag : string -> string -> Val;
  pot_reading : option float;
  clock : Z
}.

(** The four lists that the solar loop appends to. *)
Record SolarLists := {
  battery_voltages : list float;
  battery_percentages : list float;
  panel_voltage_values : list float;
  battery_ah_values : list float
}.

(** [for x in l: body(x)]. *)
Fixpoint for_each {S A} (l : list A) (body : A -> M S unit) : M S unit :=
  match l with
  | [] => ret tt
  | x :: l' => body x ;;; for_each l' body
  end.

Section Application.
Context `{RT : Runtime} (config : Config).

(** [s in (a, b)] for a string literal [s]. *)
Definition in_pair (s : string) (a b : Val) : bool :=
  eq_str a s || eq_str b s.

(** [check_faults]. *)
Definition check_faults (env : Env) : M World unit :=
  let p1_app_state := get_tag env "AppState" (pump_1 config) in
  let p2_app_state := get_tag env "AppState" (pump_2 config) in
  (if in_pair "pressure_high_high_level" p1_app_state p2_app_state then
     modify (set_hh_pressure_active true)
   else if in_pair "tank_level_low_low_level" p1_app_state p2_app_state then
     modify (set_ll_tank_level_active true)
   else ret tt) ;;;
  let! self := get in
  set_faults (hh_pressure_active self) (ll_tank_level_active self) (clock env).

Definition set_do (pin : Z) (value : bool) : M World unit := perform (SetDO pin value).
Definition set_ao (pin : Z) (value : Z) : M World unit := perform (SetAO pin value).
Definition set_tag (tag : string) (value : Val) (app_key : string) : M World unit :=
  perform (SetTag tag value app_key).

(** [float(v) < 0.1]. *)
Definition below_tenth (v : Val) : M World bool :=
  let! x := lift_result (to_float v) in ret (PrimFloat.ltb x 0.1).

(** The start LED of one pump, from its state string. *)
Definition update_start_led (state_string led_state : Val) (pin : Z) : M World unit :=
  if eq_str state_string "pumping" then
    if negb (truthy led_state) then set_do pin true else ret tt
  else if eq_str state_string "standby" then
    if truthy led_state then set_do pin false else ret tt
  else ret tt.

(** [update_pump_leds]. *)
Definition update_pump_leds (env : Env) : M World unit :=
  let p1_state_string := get_tag env "StateString" (pump_1 config) in
  let p2_state_string := get_tag env "StateString" (pump_2 config) in
  let p1_led_state := get_tag env (String.append "DO" (str_of_Z (pump_1_start_LED_pin config))) "platform" in
  let p2_led_state := get_tag env (String.append "DO" (str_of_Z (pump_2_start_LED_pin config))) "platform" in
  let p1_fault_led_state := get_tag env (String.append "AO" (str_of_Z (pump_1_fault_LED_pin config))) "platform" in
  let p2_fault_led_state := get_tag env (String.append "AO" (str_of_Z (pump_2_fault_LED_pin config))) "platform" in
  let! self := get in
  (if negb (is_none p1_fault_led_state) && negb (is_none p2_fault_led_state) then
     if hh_pressure_active self || ll_tank_level_active self then
       let! low1 := below_tenth p1_fault_led_state in
       let! low := (if low1 then ret true else below_tenth p2_fault_led_state) in
       if low then
         set_ao (pump_1_fault_LED_pin config) 100 ;;;
         set_ao (pump_2_fault_LED_pin config) 100
       else ret tt
     else
       let! on1 := lift_result (gt_zero p1_fault_led_state) in
       let! on := (if on1 then ret true else lift_result (gt_zero p2_fault_led_state)) in
       if on then
         set_ao (pump_1_fault_LED_pin config) 0 ;;;
         set_ao (pump_2_fault_LED_pin config) 0
       else ret tt
   else ret tt) ;;;
  update_start_led p1_state_string p1_led_state (pump_1_start_LED_pin config) ;;;
  update_start_led p2_state_string p2_led_state (pump_2_start_LED_pin config).

(** [last * 0.99 < ai < last * 1.01], a chained comparison; multiplying
    a stored [None] raises TypeError. *)
Definition within_band (last : option float) (ai : float) : Result bool :=
  match last with
  | None => Raise TypeError
  | Some l =>
      Ok (PrimFloat.ltb (PrimFloat.mul l 0.99) ai && PrimFloat.ltb ai (PrimFloat.mul l 1.01))
  end.

(** [round(ai_input / sys_voltage * 100, 2)]; dividing [None] raises
    TypeError. *)
Definition target_rate_of (ai_input : option float) (sys_voltage : Val) : Result float :=
  match ai_input with
  | None => Raise TypeError
  | Some ai =>
      match truediv ai sys_voltage with
      | Ok q => Ok (round2 (PrimFloat.mul q 100))
      | Raise e => Raise e
      end
  end.

(** [update_target_rate]. *)
Definition update_target_rate (env : Env) : M World unit :=
  let! pump_number := getSelectedPump in
  let ai_input := pot_reading env in
  let! self := get in
  let! in_window :=
    match ai_input with
    | Some ai => lift_result (within_band (last_ai_input self) ai)
    | None => ret false
    end in
  if in_window then ret tt
  else
    let sys_voltage := get_tag env "voltage" "platform" in
    let sys_voltage := if negb (truthy sys_voltage) then VFloat 25.0 else sys_voltage in
    let! target_rate := lift_result (target_rate_of ai_input sys_voltage) in
    (if Z.eqb pump_number 1 then
       set_tag "TargetRatePercentage" (VFloat target_rate) (pump_1 config)
     else if Z.eqb pump_number 2 then
       set_tag "TargetRatePercentage" (VFloat target_rate) (pump_2 config)
     else ret tt) ;;;
    modify (set_last_ai_input ai_input).

(** [update_pump_state_tag]. *)
Definition update_pump_state_tag (pump_number : Z) (state : Z) : M World unit :=
  if Z.eqb pump_number 1 then set_tag "StateWrite" (VInt state) (pump_1 config)
  else if Z.eqb pump_number 2 then set_tag "StateWrite" (VInt state) (pump_2 config)
  else ret tt.

(** [selector_button_callback]. *)
Definition selector_button_callback (now : Z) : M World unit :=
  let! self := get in
  if hh_pressure_active self || ll_tank_level_active self then
    modify (set_hh_pressure_active false) ;;;
    modify (set_ll_tank_level_active false) ;;;
    clear_faults now
  else
    toggleSelectedPump now ;;; ret tt.

(** [start_pump_callback]. *)
Definition start_pump_callback : M World unit :=
  let! self := get in
  if negb (start_first_callback self) then
    modify (set_start_first_callback true)
  else
    let! pump_number := getSelectedPump in
    update_pump_state_tag pump_number 2.

(** [stop_pump_callback]. *)
Definition stop_pump_callback : M World unit :=
  let! pump_number := getSelectedPump in
  update_pump_state_tag pump_number 0.

(** [if r is not None: l.append(float(r))]. *)
Definition append_reading (r : Val) (l : list float) : Result (list float) :=
  if is_none r then Ok l
  else match to_float r with
       | Ok x => Ok (l ++ [x])
       | Raise e => Raise e
       end.

(** The body of the loop over the solar controllers. *)
Definition collect_solar (env : Env) (solar_controller : string) : M SolarLists unit :=
  let! acc := get in
  let! bv := lift_result (append_reading (get_tag env "b_voltage" solar_controller)
                            (battery_voltages acc)) in
  let! bp := lift_result (append_reading (get_tag env "b_percent" solar_controller)
                            (battery_percentages acc)) in
  let! pv := lift_result (append_reading (get_tag env "panel_voltage" solar_controller)
                            (panel_voltage_values acc)) in
  let! ah := lift_result (append_reading (get_tag env "remaining_ah" solar_controller)
                            (battery_ah_values acc)) in
  modify (fun _ => {| battery_voltages := bv; battery_percentages := bp;
                      panel_voltage_values := pv; battery_ah_values := ah |}).

(** [sum(l) / len(l)] for a non-empty list, else [0.0]. *)
Definition average (l : list float) : float :=
  match l with
  | [] => 0
  | _ => PrimFloat.div (Py.sum l) (float_of_Z (Z.of_nat (length l)))
  end.

(** The panel average, set to [0.0] when below zero. *)
Definition panel_average (l : list float) : float :=
  match l with
  | [] => 0
  | _ =>
      let panel_voltage := PrimFloat.div (Py.sum l) (float_of_Z (Z.of_nat (length l))) in
      if PrimFloat.ltb panel_voltage 0 then 0 else panel_voltage
  end.

(** [sum(l)] for a non-empty list, else [0.0]. *)
Definition total (l : list float) : float :=
  match l with
  | [] => 0
  | _ => Py.sum l
  end.

(** The solar block of [update_dashboard_data] when the controller array
    is truthy: battery voltage, battery percentage, panel voltage and
    battery amp-hours. *)
Definition solar_aggregate (env : Env) : Result (float * float * float * float) :=
  let empty := {| battery_voltages := []; battery_percentages := [];
                  panel_voltage_values := []; battery_ah_values := [] |} in
  match for_each (solar_controllers config) (collect_solar env) empty with
  | (Ok _, acc) =>
      Ok (average (battery_voltages acc), average (battery_percentages acc),
          panel_average (panel_voltage_values acc), total (battery_ah_values acc))
  | (Raise e, _) => Raise e
  end.

(** [get_tag(tag, app) if app else None] for the tank application. *)
Definition tank_tag (env : Env) (tag : string) : Val :=
  match tank_level_app config with
  | Some app => if String.eqb app "" then VNone else get_tag env tag app
  | None => VNone
  end.

(** The solar block of [update_dashboard_data] with the call that follows
    it.  When the controller array is falsy the four solar variables are
    unbound at the call of [update_solar_data]. *)
Definition update_solar (env : Env) : M World unit :=
  if solar_controllers_truth config then
    let! agg := lift_result (solar_aggregate env) in
    let '(battery_voltage, battery_percentage, panel_voltage, battery_ah) := agg in
    update_solar_data (VFloat battery_voltage) (VFloat battery_percentage)
                      (VFloat panel_voltage) (VFloat battery_ah) (clock env)
  else throw UnboundLocalError.

(** [update_dashboard_data]. *)
Definition update_dashboard_data (env : Env) : M World unit :=
  let now := clock env in
  update_pump_data (get_tag env "TargetRate" (pump_1 config))
                   (get_tag env "FlowRate" (pump_1 config))
                   (get_tag env "StateString" (pump_1 config)) now ;;;
  update_pump2_data (get_tag env "TargetRate" (pump_2 config))
                    (get_tag env "FlowRate" (pump_2 config))
                    (get_tag env "StateString" (pump_2 config)) now ;;;
  update_solar env ;;;
  let tank_level_m := tank_tag env "level_reading" in
  let! tank_level_mm :=
    (if is_none tank_level_m then ret VNone
     else lift_result (mul_int tank_level_m 1000)) in
  let tank_level_percent := tank_tag env "level_filled_percentage" in
  update_tank_data tank_level_mm tank_level_percent now ;;;
  update_skid_data (get_tag env "value" (flow_sensor_app config))
                   (get_tag env "value" (pressure_sensor_app config)) now.

(** [main_loop]. *)
Definition main_loop (env : Env) : M World unit :=
  check_faults env ;;;
  update_target_rate env ;;;
  update_dashboard_data env ;;;
  update_pump_leds env.

(** The state after [__init__] and [setup]: [now] is the clock reading
    and [ai] the raw analog reading taken in [setup]. *)
Definition initial (now : Z) (ai : option float) : World := {|
  start_first_callback := false;
  hh_pressure_active := false;
  ll_tank_level_active := false;
  last_ai_input := ai;
  selected_pump := 1;
  data := DashboardData_init now;
  connected_clients := ∅;
  effects := []
|}.

(** ** The program as a transition system

    Everything that runs after start-up: the periodic tick, the three
    pulse-counter callbacks, the Socket.IO handlers, the heartbeat loop
    and the timer that broadcasts the selection. *)
Inductive Event :=
| Tick (env : Env)
| SelectorEdge (now : Z)
| StartEdge
| StopEdge
| Connect (sid : string)
| Disconnect (sid : string)
| RequestData (sid : string)
| RequestPumpSelection (sid : string) (now : Z)
| SetPumpState (msg : gmap string Val) (now : Z)
| ToggleRequest (sid : string)
| Heartbeat (now : Z)
| SelectionTimer (now : Z).

Definition handler (ev : Event) : M World unit :=
  match ev with
  | Tick env => main_loop env
  | SelectorEdge now => selector_button_callback now
  | StartEdge => start_pump_callback
  | StopEdge => stop_pump_callback
  | Connect sid => handle_connect sid
  | Disconnect sid => handle_disconnect sid
  | RequestData sid => handle_data_request sid
  | RequestPumpSelection sid now => handle_pump_selection_request sid now
  | SetPumpState msg now => handle_pump_state_change msg now
  | ToggleRequest sid => handle_toggle_selected_pump sid
  | Heartbeat now => _background_updates now
  | SelectionTimer now => broadcast_pump_selection now
  end.

(** One event; an exception that escapes the handler leaves the state as
    it was when it was raised. *)
Definition step (w : World) (ev : Event) : World := snd (handler ev w).

Definition run (w : World) (evs : list Event) : World := fold_left step evs w.

End Application.

(** * Vocabulary of the statements *)

(** ** The snapshot update

    The update of one leaf, read off [_update_numeric], [_update_string]
    and the fault branch of [update_from_dict], and the tables of section
    4.5 of the specification: which key of which section feeds which
    attribute, and with which tolerance. *)

Section SnapshotUpdate.
Context `{RT : Runtime}.

(** The test of [_update_numeric] on the stored and the new float. *)
Definition exceeds (tolerance current new : float) : bool :=
  if isfinite current && isfinite new
  then negb (PrimFloat.leb (PrimFloat.abs (PrimFloat.sub current new)) tolerance)
  else negb (PrimFloat.eqb current new).

(** The float that a supplied value overwrites a numeric attribute with,
    if it does. *)
Definition num_update (tolerance current : float) (value : option Val) : option float :=
  match value with
  | Some v =>
      match to_float v with
      | Ok new => if exceeds tolerance current new then Some new else None
      | Raise _ => None
      end
  | None => None
  end.

Definition str_update (current : string) (value : option Val) : option string :=
  match value with
  | Some v =>
      if is_none v then None
      else if String.eqb current (to_str v) then None else Some (to_str v)
  | None => None
  end.

Definition bool_update (current : bool) (value : option Val) : option bool :=
  match value with
  | Some v => if Bool.eqb current (_to_bool v current) then None else Some (_to_bool v current)
  | None => None
  end.

Definition given {A} (o : option A) : bool :=
  match o with Some _ => true | None => false end.

(** The dict given for a section; no entries when the section is absent
    or is not a dict. *)
Definition section (data : gmap string Arg) (name : string) : gmap string Val :=
  match data !! name with
  | Some (ADict m) => m
  | _ => ∅
  end.

(** The value supplied for the key [src.2] of the section [src.1]. *)
Definition supplied (data : gmap string Arg) (src : string * string) : option Val :=
  section data src.1 !! src.2.

(** Section 4.5: the tolerance of each numeric field. *)
Definition spec_tolerance (attr : Attr.num) : float :=
  match attr with
  | Attr.target_rate | Attr.flow_rate
  | Attr.pump2_target_rate | Attr.pump2_flow_rate => 0.05
  | Attr.battery_voltage => 0.1
  | Attr.battery_percentage => 0.2
  | Attr.panel_power => 0.1
  | Attr.battery_ah => 0.1
  | Attr.tank_level_mm => 1.0
  | Attr.tank_level_percent => 1
  | Attr.skid_flow => 0.1
  | Attr.skid_pressure => 10
  end.

(** The section and key of the wire format behind each attribute. *)
Definition num_source (attr : Attr.num) : string * string :=
  match attr with
  | Attr.target_rate => ("pump", "target_rate")
  | Attr.flow_rate => ("pump", "flow_rate")
  | Attr.pump2_target_rate => ("pump2", "target_rate")
  | Attr.pump2_flow_rate => ("pump2", "flow_rate")
  | Attr.battery_voltage => ("solar", "battery_voltage")
  | Attr.battery_percentage => ("solar", "battery_percentage")
  | Attr.panel_power => ("solar", "panel_power")
  | Attr.battery_ah => ("solar", "battery_ah")
  | Attr.tank_level_mm => ("tank", "tank_level_mm")
  | Attr.tank_level_percent => ("tank", "tank_level_percent")
  | Attr.skid_flow => ("skid", "skid_flow")
  | Attr.skid_pressure => ("skid", "skid_pressure")
  end.

Definition str_source (attr : Attr.str) : string * string :=
  match attr with
  | Attr.pump_state => ("pump", "pump_state")
  | Attr.pump2_pump_state => ("pump2", "pump_state")
  | Attr.system_status => ("system", "status")
  end.

Definition all_num : list Attr.num :=
  [Attr.target_rate; Attr.flow_rate; Attr.pump2_target_rate; Attr.pump2_flow_rate;
   Attr.battery_voltage; Attr.battery_percentage; Attr.panel_power; Attr.battery_ah;
   Attr.tank_level_mm; Attr.tank_level_percent; Attr.skid_flow; Attr.skid_pressure].

Definition all_str : list Attr.str :=
  [Attr.pump_state; Attr.pump2_pump_state; Attr.system_status].

(** Whether the update overwrites a given attribute. *)
Definition num_overwritten (data : gmap string Arg) (d : DashboardData) (attr : Attr.num) : bool :=
  given (num_update (spec_tolerance attr) (getattr_num attr d) (supplied data (num_source attr))).

Definition str_overwritten (data : gmap string Arg) (d : DashboardData) (attr : Attr.str) : bool :=
  given (str_update (getattr_str attr d) (supplied data (str_source attr))).

Definition hh_overwritten (data : gmap string Arg) (d : DashboardData) : bool :=
  given (bool_update (faults_hh_pressure d) (supplied data ("faults", "hh_pressure"))).

Definition ll_overwritten (data : gmap string Arg) (d : DashboardData) : bool :=
  given (bool_update (faults_ll_tank_level d) (supplied data ("faults", "ll_tank_level"))).

(** Storing the outcome of one leaf. *)
Definition store_num (attr : Attr.num) (u : option float) (d : DashboardData) : DashboardData :=
  setattr_num attr (default (getattr_num attr d) u) d.

Definition store_str (attr : Attr.str) (u : option string) (d : DashboardData) : DashboardData :=
  setattr_str attr (default (getattr_str attr d) u) d.

Definition store_hh (u : option bool) (d : DashboardData) : DashboardData :=
  set_faults_hh_pressure (default (faults_hh_pressure d) u) d.

Definition store_ll (u : option bool) (d : DashboardData) : DashboardData :=
  set_faults_ll_tank_level (default (faults_ll_tank_level d) u) d.

(** One [changed |= self._update_...(section.get(key), ...)] line. *)
Inductive Leaf :=
| LNum (key : string) (attr : Attr.num) (tolerance : float)
| LStr (key : string) (attr : Attr.str).

Definition run_leaf (sec : Arg) (changed : bool) (leaf : Leaf) : M DashboardData bool :=
  match leaf with
  | LNum key attr tolerance => or_update changed (update_numeric_key sec key attr tolerance)
  | LStr key attr => or_update changed (update_string_key sec key attr)
  end.

Fixpoint run_leaves (sec : Arg) (changed : bool) (leaves : list Leaf) : M DashboardData bool :=
  match leaves with
  | [] => ret changed
  | leaf :: rest => let! changed := run_leaf sec changed leaf in run_leaves sec changed rest
  end.

(** What a run of leaf updates that returns has done. *)
Definition apply_leaf (m : gmap string Val) (st : bool * DashboardData) (leaf : Leaf)
  : bool * DashboardData :=
  match leaf with
  | LNum key attr tolerance =>
      let u := num_update tolerance (getattr_num attr st.2) (m !! key) in
      (st.1 || given u, store_num attr u st.2)
  | LStr key attr =>
      let u := str_update (getattr_str attr st.2) (m !! key) in
      (st.1 || given u, store_str attr u st.2)
  end.

Definition apply_leaves (m : gmap string Val) (leaves : list Leaf) (st : bool * DashboardData)
  : bool * DashboardData :=
  fold_left (apply_leaf m) leaves st.

End SnapshotUpdate.

(** ** Faults, selection, edges and readings *)

Section Vocabulary.
Context `{RT : Runtime} (config : Config).

(** Whether a pump reports the high-high pressure code, and whether one
    reports the low-low tank level code. *)
Definition pressure_seen (env : Env) : bool :=
  in_pair "pressure_high_high_level"
    (get_tag env "AppState" (pump_1 config)) (get_tag env "AppState" (pump_2 config)).

Definition tank_seen (env : Env) : bool :=
  in_pair "tank_level_low_low_level"
    (get_tag env "AppState" (pump_1 config)) (get_tag env "AppState" (pump_2 config)).

(** Kinds of events. *)
Definition is_selector_edge (ev : Event) : bool :=
  match ev with SelectorEdge _ => true | _ => false end.

Definition is_tick (ev : Event) : bool :=
  match ev with Tick _ => true | _ => false end.

Definition is_start_edge (ev : Event) : bool :=
  match ev with StartEdge => true | _ => false end.

(** The keyword arguments that [set_faults] passes to [update_data]. *)
Definition faults_kwargs (hh ll : bool) : gmap string Arg :=
  {[ "faults" := ADict {[ "hh_pressure" := VBool hh; "ll_tank_level" := VBool ll ]} ]}.

(** The test of [selector_button_callback], and the other pump. *)
Definition fault_active (w : World) : bool :=
  hh_pressure_active w || ll_tank_level_active w.

Definition toggled (selected : Z) : Z := if Z.eqb selected 1 then 2 else 1.

(** The fault checks of successive ticks, each with its own readings. *)
Definition fault_checks (w : World) (envs : list Env) : World :=
  fold_left (fun w env => snd (check_faults config env w)) envs w.

(** The selection names one of the two pumps. *)
Definition valid_selection (w : World) : Prop :=
  selected_pump w = 1 \/ selected_pump w = 2.

(** The application key of the selected pump. *)
Definition selected_app (w : World) : string :=
  if Z.eqb (selected_pump w) 1 then pump_1 config else pump_2 config.




(** The values [float()] rejects with an exception that
    [_update_numeric] does not catch: ints beyond the float range. *)
Definition overflows (v : Val) : Prop := to_float v = Raise OverflowError.

(** The six sections whose value must be a dict. *)
Definition dict_sections : list string :=
  ["pump"; "pump2"; "solar"; "tank"; "skid"; "system"].

End Vocabulary.

(** ** Frames

    [Kept f m]: running [m] leaves the projection [f] of the state as it
    was, whether [m] returns or raises. *)

Definition Kept {X A} (f : World -> X) (m : M World A) : Prop :=
  forall w, f (snd (m w)) = f w.

(** [Unchanged f m]: the same for a method of the snapshot. *)
Definition Unchanged {X A} (f : DashboardData -> X) (m : M DashboardData A) : Prop :=
  forall d, f (snd (m d)) = f d.

(** [Raises P m]: an exception that leaves [m] satisfies [P]. *)
Definition Raises {S A} (P : Exn -> Prop) (m : M S A) : Prop :=
  forall s e s', m s = (Raise e, s') -> P e.

(** [Appends P m]: all that [m] does to the log of effects is to add
    effects that satisfy [P] at its end. *)
Definition Appends {A} (P : Effect -> bool) (m : M World A) : Prop :=
  forall w, exists es, effects (snd (m w)) = effects w ++ es /\ forallb P es = true.

(** ** Kinds of effects and of events *)

Definition is_emit (e : Effect) : bool :=
  match e with Emit _ _ _ => true | _ => false end.

(** A write to the tag that starts and stops a pump. *)
Definition is_state_write (e : Effect) : bool :=
  match e with SetTag tag _ _ => String.eqb tag "StateWrite" | _ => false end.

Definition is_pump_edge (ev : Event) : bool :=
  match ev with StartEdge | StopEdge => true | _ => false end.

(** The events that come from the dashboard: its clients, its heartbeat
    loop and its timer. *)
Definition from_dashboard (ev : Event) : bool :=
  match ev with
  | Connect _ | Disconnect _ | RequestData _ | RequestPumpSelection _ _
  | SetPumpState _ _ | ToggleRequest _ | Heartbeat _ | SelectionTimer _ => true
  | _ => false
  end.

(** The snapshot shows the fault flags that the application holds. *)
Definition mirrored (w : World) : Prop :=
  faults_hh_pressure (data w) = hh_pressure_active w
  /\ faults_ll_tank_level (data w) = ll_tank_level_active w.

(** A snapshot's own wire format, as keyword arguments of an update. *)
Definition echo `{RT : Runtime} (d : DashboardData) : gmap string Arg :=
  ADict <$> to_dict d.

(** No value supplied for a numeric field converts to a NaN. *)
Definition no_nan `{RT : Runtime} (data : gmap string Arg) : Prop :=
  forall attr v x,
    supplied data (num_source attr) = Some v -> to_float v = Ok x ->
    PrimFloat.is_nan x = false.

(** The tags that the solar loop reads from each controller. *)
Definition solar_tags : list string :=
  ["b_voltage"; "b_percent"; "panel_voltage"; "remaining_ah"].

(** * Concrete inputs *)

(** A runtime in which no string parses as a float; the runs below
    convert no string and print no float. *)
Definition plain_runtime : Runtime := {|
  float_of_str := fun _ => None;
  str_of_float := fun _ => "float";
  isoformat := fun _ => "time"
|}.

(** A site with two solar controllers and a tank. *)
Definition site : Config := {|
  pump_1 := "pump_1";
  pump_2 := "pump_2";
  pump_1_start_LED_pin := 1;
  pump_1_fault_LED_pin := 2;
  pump_2_start_LED_pin := 3;
  pump_2_fault_LED_pin := 4;
  solar_controllers_truth := true;
  solar_controllers := ["solar_1"; "solar_2"];
  flow_sensor_app := "flow";
  pressure_sensor_app := "pressure";
  tank_level_app := Some "tank"
|}.

(** A tag store given by its entries; an absent tag reads [None]. *)
Fixpoint tag_store (entries : list (string * string * Val)) (tag app : string) : Val :=
  match entries with
  | [] => VNone
  | (t, a, v) :: rest =>
      if String.eqb t tag && String.eqb a app then v else tag_store rest tag app
  end.

(** What a tick reads: the tags, the potentiometer, the clock at 7. *)
Definition reading (entries : list (string * string * Val)) (pot : option float) : Env :=
  {| get_tag := tag_store entries; pot_reading := pot; clock := 7 |}.

(** Pump 1 reports high-high pressure while pump 2 reports low-low tank
    level. *)
Definition both_faults : Env :=
  reading [("AppState", "pump_1", VStr "pressure_high_high_level");
           ("AppState", "pump_2", VStr "tank_level_low_low_level")] (Some 12%float).

(** Both pumps report a clean status. *)
Definition no_faults : Env :=
  reading [("AppState", "pump_1", VStr "standby");
           ("AppState", "pump_2", VStr "standby")] (Some 12%float).

(** Two controllers report battery voltage and remaining amp-hours. *)
Definition two_controllers : Env :=
  reading [("b_voltage", "solar_1", VFloat 24); ("b_voltage", "solar_2", VFloat 26);
           ("remaining_ah", "solar_1", VFloat 50); ("remaining_ah", "solar_2", VFloat 70)]
          (Some 12%float).

(** The potentiometer gives no reading while pump 1 is pumping. *)
Definition no_pot_reading : Env :=
  reading [("StateString", "pump_1", VStr "pumping")] None.

(** The state after start-up at time 0 with an analog reading of 12.0. *)
Definition started : World := initial 0 (Some 12%float).

(** The snapshot after pump 1's target rate was set to 10.0. *)
Definition at_ten : DashboardData := setattr_num Attr.target_rate 10 (DashboardData_init 0).

(** An update that supplies [v] for the target rate of pump 1. *)
Definition pump_target (v : Val) : gmap string Arg :=
  {[ "pump" := ADict {[ "target_rate" := v ]} ]}.

(** The platform voltage tag reads 25.0. *)
Definition at_25_volts (pot : option float) : Env :=
  reading [("voltage", "platform", VFloat 25)] pot.

(** * Properties *)

(** ** Comparisons of floats *)

Lemma SFcompare_antisym x y : SFcompare y x = option_map CompOpp (SFcompare x y).
Proof.
  destruct x as [sx|sx| |sx mx ex], y as [sy|sy| |sy my ey]; simpl;
    try reflexivity; try (destruct sx; reflexivity); try (destruct sy; reflexivity);
    try (destruct sx, sy; reflexivity).
  destruct sx, sy; try reflexivity; simpl;
    rewrite (Z.compare_antisym ex ey); destruct (Z.compare ex ey); simpl; try reflexivity.
  - rewrite CompOpp_involutive, Pos.compare_cont_antisym. reflexivity.
  - rewrite Pos.compare_cont_antisym. reflexivity.
Qed.

Lemma not_nan_spec x : PrimFloat.is_nan x = false -> Prim2SF x <> S754_nan.
Proof.
  unfold PrimFloat.is_nan. rewrite FloatAxioms.eqb_spec. intros H E. rewrite E in H.
  discriminate.
Qed.

(** For floats that are not NaN, [not (x <= y)] is [y < x]. *)
Lemma not_leb_ltb x y :
  PrimFloat.is_nan x = false -> PrimFloat.is_nan y = false ->
  negb (PrimFloat.leb x y) = PrimFloat.ltb y x.
Proof.
  intros Hx Hy. apply not_nan_spec in Hx, Hy.
  rewrite leb_spec, ltb_spec. unfold SFleb, SFltb.
  rewrite (SFcompare_antisym (Prim2SF x) (Prim2SF y)).
  destruct (Prim2SF x) as [[]|[]| |[] mx ex]; try contradiction;
    destruct (Prim2SF y) as [[]|[]| |[] my ey]; try contradiction;
    cbn [SFcompare]; try reflexivity;
    match goal with
    | |- context [option_map CompOpp (Some ?c)] => generalize c; intros []; reflexivity
    end.
Qed.

(** ** Frame reasoning *)

Lemma Kept_ret {X A} (f : World -> X) (a : A) : Kept f (ret a).
Proof. intros w. reflexivity. Qed.

Lemma Kept_throw {X A} (f : World -> X) e : Kept f (@throw World A e).
Proof. intros w. reflexivity. Qed.

Lemma Kept_get {X} (f : World -> X) : Kept f get.
Proof. intros w. reflexivity. Qed.

Lemma Kept_lift_result {X A} (f : World -> X) (r : Result A) : Kept f (lift_result r).
Proof. intros w. reflexivity. Qed.

Lemma Kept_bind {X A B} (f : World -> X) (m : M World A) (k : A -> M World B) :
  Kept f m -> (forall a, Kept f (k a)) -> Kept f (bind m k).
Proof.
  intros Hm Hk w. unfold bind. specialize (Hm w).
  destruct (m w) as [[a|e] w']; simpl in *; [rewrite Hk|]; exact Hm.
Qed.

Lemma Kept_try_except {X} (f : World -> X) (m : M World unit) :
  Kept f m -> Kept f (try_except m).
Proof.
  intros Hm w. unfold try_except. specialize (Hm w).
  destruct (m w) as [[a|e] w']; exact Hm.
Qed.

Lemma Kept_modify {X} (f : World -> X) (g : World -> World) :
  (forall w, f (g w) = f w) -> Kept f (modify g).
Proof. intros Hg w. apply Hg. Qed.

Lemma Kept_on_data {X A} (f : World -> X) (m : M DashboardData A) :
  (forall d w, f (set_data d w) = f w) -> Kept f (on_data m).
Proof.
  intros Hf w. unfold on_data. destruct (m (data w)) as [r d]. apply Hf.
Qed.

Lemma Kept_perform {X} (f : World -> X) (e : Effect) :
  (forall l w, f (set_effects l w) = f w) -> Kept f (perform e).
Proof. intros Hf w. apply Hf. Qed.

Lemma Kept_if {X A} (f : World -> X) (b : bool) (m1 m2 : M World A) :
  Kept f m1 -> Kept f m2 -> Kept f (if b then m1 else m2).
Proof. destruct b; auto. Qed.

Lemma Kept_decide {X A} (f : World -> X) (P : Prop) `{Decision P} (m1 m2 : M World A) :
  Kept f m1 -> Kept f m2 -> Kept f (if decide P then m1 else m2).
Proof. destruct (decide P); auto. Qed.

Create HintDb kept.
Create HintDb app.
Create Rewrite HintDb getset.
#[local] Hint Unfold broadcast_update update_data update_section set_faults clear_faults
  update_pump_data update_pump2_data update_solar_data update_tank_data update_skid_data
  handle_connect handle_disconnect handle_data_request handle_pump_selection_request
  handle_pump_state_change handle_toggle_selected_pump _background_updates
  broadcast_pump_selection toggleSelectedPump getSelectedPump setSelectedPump
  check_faults set_do set_ao set_tag below_tenth update_start_led update_pump_leds
  update_target_rate update_pump_state_tag selector_button_callback start_pump_callback
  stop_pump_callback update_solar update_dashboard_data main_loop handler : app.
#[local] Hint Resolve Kept_ret Kept_throw Kept_get Kept_lift_result Kept_bind
  Kept_try_except Kept_modify Kept_on_data Kept_perform Kept_if Kept_decide : kept.

(** Decompose a [Kept] goal along the structure of the computation. *)
Ltac kept_step :=
  match goal with
  | |- Kept _ (bind _ _) => apply Kept_bind; [| intros ?]
  | |- Kept _ (ret _) => apply Kept_ret
  | |- Kept _ (throw _) => apply Kept_throw
  | |- Kept _ get => apply Kept_get
  | |- Kept _ (lift_result _) => apply Kept_lift_result
  | |- Kept _ (try_except _) => apply Kept_try_except
  | |- Kept _ (modify _) => apply Kept_modify; intros; reflexivity
  | |- Kept _ (on_data _) => apply Kept_on_data; intros; reflexivity
  | |- Kept _ (perform _) => apply Kept_perform; intros; reflexivity
  | |- Kept _ (if decide _ then _ else _) => apply Kept_decide
  | |- Kept _ (if _ then _ else _) => apply Kept_if
  | |- Kept _ (match ?x with _ => _ end) => destruct x
  | |- Kept _ _ => solve [auto with kept]
  | |- Kept _ _ => progress autounfold with app
  end.

Ltac kept := repeat kept_step.

Section Properties.
Context `{RT : Runtime} (config : Config).

Lemma Kept_broadcast_update {X} (f : World -> X) :
  (forall l w, f (set_effects l w) = f w) -> Kept f broadcast_update.
Proof. intros Hf. unfold broadcast_update. kept; auto with kept. Qed.

Lemma Kept_update_data {X} (f : World -> X) kwargs now :
  (forall d w, f (set_data d w) = f w) ->
  (forall l w, f (set_effects l w) = f w) ->
  Kept f (update_data kwargs now).
Proof.
  intros Hd He. unfold update_data. kept; auto using Kept_broadcast_update with kept.
Qed.

Lemma update_data_ok kwargs now w : fst (update_data kwargs now w) = Ok tt.
Proof.
  unfold update_data, try_except.
  destruct (decide (kwargs = ∅)); [reflexivity|].
  match goal with |- fst (match ?m with _ => _ end) = _ => destruct m as [[[]|e] w'] end;
    reflexivity.
Qed.

Lemma bind_ok {S A B} (m : M S A) (k : A -> M S B) s a s' :
  m s = (Ok a, s') -> bind m k s = k a s'.
Proof. intros H. unfold bind. rewrite H. reflexivity. Qed.

Lemma bind_raise {S A B} (m : M S A) (k : A -> M S B) s e s' :
  m s = (Raise e, s') -> bind m k s = (Raise e, s').
Proof. intros H. unfold bind. rewrite H. reflexivity. Qed.

Lemma update_data_run kwargs now w :
  update_data kwargs now w = (Ok tt, snd (update_data kwargs now w)).
Proof.
  rewrite <- (update_data_ok kwargs now w). destruct (update_data kwargs now w); reflexivity.
Qed.

(** *** The fault latch *)

Lemma check_faults_ok env w : fst (check_faults config env w) = Ok tt.
Proof.
  unfold check_faults, set_faults.
  fold (pressure_seen config env). fold (tank_seen config env).
  destruct (pressure_seen config env); [| destruct (tank_seen config env)];
    unfold bind, modify, get, ret; apply update_data_ok.
Qed.

Lemma check_faults_hh env w :
  hh_pressure_active (snd (check_faults config env w))
  = hh_pressure_active w || pressure_seen config env.
Proof.
  unfold check_faults, set_faults.
  fold (pressure_seen config env). fold (tank_seen config env).
  destruct (pressure_seen config env); [| destruct (tank_seen config env)];
    unfold bind, modify, get, ret;
    rewrite (Kept_update_data hh_pressure_active) by reflexivity; simpl;
    destruct (hh_pressure_active w); reflexivity.
Qed.

Lemma check_faults_ll env w :
  ll_tank_level_active (snd (check_faults config env w))
  = ll_tank_level_active w || (negb (pressure_seen config env) && tank_seen config env).
Proof.
  unfold check_faults, set_faults.
  fold (pressure_seen config env). fold (tank_seen config env).
  destruct (pressure_seen config env); [| destruct (tank_seen config env)];
    unfold bind, modify, get, ret;
    rewrite (Kept_update_data ll_tank_level_active) by reflexivity; simpl;
    destruct (ll_tank_level_active w); reflexivity.
Qed.

Lemma Kept_after {X A B} (f : World -> X) (m : M World A) (k : A -> M World B) w :
  (forall a, Kept f (k a)) -> f (snd (bind m k w)) = f (snd (m w)).
Proof.
  intros Hk. unfold bind. destruct (m w) as [[a|e] w']; simpl; [apply Hk | reflexivity].
Qed.

(** Only the fault check of a tick writes the two flags. *)
Lemma main_loop_hh env w :
  hh_pressure_active (snd (main_loop config env w))
  = hh_pressure_active w || pressure_seen config env.
Proof.
  unfold main_loop. rewrite Kept_after; [apply check_faults_hh|].
  intros _. kept.
Qed.

Lemma main_loop_ll env w :
  ll_tank_level_active (snd (main_loop config env w))
  = ll_tank_level_active w || (negb (pressure_seen config env) && tank_seen config env).
Proof.
  unfold main_loop. rewrite Kept_after; [apply check_faults_ll|].
  intros _. kept.
Qed.

Lemma handler_keeps_hh ev :
  is_selector_edge ev = false -> is_tick ev = false ->
  Kept hh_pressure_active (handler config ev).
Proof. destruct ev; try discriminate; intros _ _; simpl handler; kept. Qed.

Lemma handler_keeps_ll ev :
  is_selector_edge ev = false -> is_tick ev = false ->
  Kept ll_tank_level_active (handler config ev).
Proof. destruct ev; try discriminate; intros _ _; simpl handler; kept. Qed.

Lemma step_keeps_hh w ev :
  is_selector_edge ev = false ->
  hh_pressure_active w = true -> hh_pressure_active (step config w ev) = true.
Proof.
  intros Hev Hw. unfold step. destruct (is_tick ev) eqn:Ht.
  - destruct ev; try discriminate. simpl handler. rewrite main_loop_hh, Hw. reflexivity.
  - rewrite handler_keeps_hh by assumption. exact Hw.
Qed.

Lemma step_keeps_ll w ev :
  is_selector_edge ev = false ->
  ll_tank_level_active w = true -> ll_tank_level_active (step config w ev) = true.
Proof.
  intros Hev Hw. unfold step. destruct (is_tick ev) eqn:Ht.
  - destruct ev; try discriminate. simpl handler. rewrite main_loop_ll, Hw. reflexivity.
  - rewrite handler_keeps_ll by assumption. exact Hw.
Qed.

(** *** The dashboard's copy of the fault flags *)

Lemma update_from_dict_faults hh ll now d :
  update_from_dict (faults_kwargs hh ll) now d
  = let changed := xorb (faults_hh_pressure d) hh || xorb (faults_ll_tank_level d) ll in
    (Ok changed,
     if changed
     then set_timestamp now (set_faults_ll_tank_level ll (set_faults_hh_pressure hh d))
     else d).
Proof.
  destruct d as [? ? ? ? ? ? ? ? ? ? ? ? ? ? ? ? fh fl].
  destruct hh, ll, fh, fl; reflexivity.
Qed.

Lemma faults_kwargs_nonempty hh ll : faults_kwargs hh ll <> ∅.
Proof. unfold faults_kwargs. apply insert_non_empty. Qed.

Lemma set_faults_data hh ll now w :
  data (snd (set_faults hh ll now w)) = snd (update_from_dict (faults_kwargs hh ll) now (data w)).
Proof.
  unfold set_faults. fold (faults_kwargs hh ll).
  unfold update_data, try_except, bind, on_data.
  destruct (decide (faults_kwargs hh ll = ∅)) as [E|_]; [destruct (faults_kwargs_nonempty _ _ E)|].
  destruct (update_from_dict (faults_kwargs hh ll) now (data w)) as [[[|]|e] d']; simpl;
    try reflexivity.
  unfold broadcast_update, bind, get. simpl.
  destruct (decide (connected_clients w = ∅)); reflexivity.
Qed.

Lemma set_faults_mirror hh ll now w :
  let w' := snd (set_faults hh ll now w) in
  faults_hh_pressure (data w') = hh /\ faults_ll_tank_level (data w') = ll.
Proof.
  simpl. rewrite set_faults_data, update_from_dict_faults.
  destruct (data w) as [? ? ? ? ? ? ? ? ? ? ? ? ? ? ? ? fh fl].
  destruct hh, ll, fh, fl; split; reflexivity.
Qed.

(** *** Selector button *)

Lemma selector_acknowledges now w :
  fault_active w = true ->
  selector_button_callback now w
  = (Ok tt, snd (clear_faults now (set_ll_tank_level_active false (set_hh_pressure_active false w)))).
Proof.
  intros Hf. unfold selector_button_callback, bind at 1, get.
  fold (fault_active w). rewrite Hf.
  unfold bind, modify. unfold clear_faults, set_faults. apply update_data_run.
Qed.

Lemma selector_toggles now w :
  fault_active w = false ->
  selector_button_callback now w
  = (Ok tt,
     set_effects (effects w ++ [Emit ToAll "pump_selection_changed"
                                  (selection_payload (toggled (selected_pump w)) now)])
       (set_selected_pump (toggled (selected_pump w)) w)).
Proof.
  intros Hf. unfold selector_button_callback, bind at 1, get.
  fold (fault_active w). rewrite Hf. reflexivity.
Qed.

Lemma selector_edge_cases (now : Z) (w : World) :
  let w' := step config w (SelectorEdge now) in
  if fault_active w then
    hh_pressure_active w' = false /\ ll_tank_level_active w' = false
    /\ faults_hh_pressure (data w') = false /\ faults_ll_tank_level (data w') = false
    /\ selected_pump w' = selected_pump w
  else
    selected_pump w' = toggled (selected_pump w)
    /\ (selected_pump w = 1 -> selected_pump w' = 2)
    /\ (selected_pump w = 2 -> selected_pump w' = 1)
    /\ (selected_pump w' = 1 \/ selected_pump w' = 2)
    /\ selected_pump w' <> selected_pump w
    /\ hh_pressure_active w' = hh_pressure_active w
    /\ ll_tank_level_active w' = ll_tank_level_active w
    /\ data w' = data w.
Proof.
  unfold step. simpl handler. destruct (fault_active w) eqn:Hf.
  - rewrite selector_acknowledges by assumption. simpl snd.
    set (w0 := set_ll_tank_level_active false (set_hh_pressure_active false w)).
    pose proof (set_faults_mirror false false now w0) as [Hh Hl].
    unfold clear_faults.
    assert (Kh : Kept hh_pressure_active (set_faults false false now)) by kept.
    assert (Kl : Kept ll_tank_level_active (set_faults false false now)) by kept.
    assert (Ks : Kept selected_pump (set_faults false false now)) by kept.
    rewrite Kh, Kl, Ks. repeat split; assumption.
  - rewrite selector_toggles by assumption. simpl.
    unfold fault_active in Hf. apply orb_false_iff in Hf as [Hh Hl].
    unfold toggled. destruct (Z.eqb_spec (selected_pump w) 1) as [E|E].
    + rewrite E. repeat split; auto; lia.
    + repeat split; auto; lia.
Qed.

(** C3. A selector-button edge while a fault flag is set clears both flags
    (and the dashboard's copy of them) and leaves the selection as it was;
    with no fault flag set it moves the selection from pump 1 to pump 2 and
    from pump 2 to pump 1, and leaves the flags and the snapshot as they
    were. *)
Theorem selector_edge_clears_or_toggles (now : Z) (w : World) :
  let w' := snd (selector_button_callback now w) in
  (fault_active w = true ->
     hh_pressure_active w' = false /\ ll_tank_level_active w' = false
     /\ faults_hh_pressure (data w') = false /\ faults_ll_tank_level (data w') = false
     /\ selected_pump w' = selected_pump w)
  /\ (fault_active w = false ->
       (selected_pump w = 1 -> selected_pump w' = 2)
       /\ (selected_pump w = 2 -> selected_pump w' = 1)
       /\ (selected_pump w' = 1 \/ selected_pump w' = 2)
       /\ hh_pressure_active w' = hh_pressure_active w
       /\ ll_tank_level_active w' = ll_tank_level_active w
       /\ faults_hh_pressure (data w') = faults_hh_pressure (data w)
       /\ faults_ll_tank_level (data w') = faults_ll_tank_level (data w)).
Proof.
  pose proof (selector_edge_cases now w) as Hc. unfold step in Hc. simpl handler in Hc.
  simpl. split; intros Hf; rewrite Hf in Hc.
  - exact Hc.
  - destruct Hc as (_ & H1 & H2 & H3 & _ & Hh & Hl & Hd). rewrite Hd. repeat split; assumption.
Qed.

(** *** Sticky fault flags *)

Lemma fault_checks_keep_hh envs : forall w,
  hh_pressure_active w = true -> hh_pressure_active (fault_checks config w envs) = true.
Proof.
  induction envs as [|env envs IH]; intros w Hw; simpl; [exact Hw|].
  apply IH. rewrite check_faults_hh, Hw. reflexivity.
Qed.

Lemma fault_checks_keep_ll envs : forall w,
  ll_tank_level_active w = true -> ll_tank_level_active (fault_checks config w envs) = true.
Proof.
  induction envs as [|env envs IH]; intros w Hw; simpl; [exact Hw|].
  apply IH. rewrite check_faults_ll, Hw. reflexivity.
Qed.

(** C1. A fault flag that is set stays set under any sequence of fault
    checks, whatever status strings they read; and an event after which a
    flag that was set is clear is a selector-button edge, taken while a
    fault was active, after which both flags are clear. *)
Theorem fault_flags_sticky (w : World) (envs : list Env) (ev : Event) :
  (hh_pressure_active w = true -> hh_pressure_active (fault_checks config w envs) = true)
  /\ (ll_tank_level_active w = true -> ll_tank_level_active (fault_checks config w envs) = true)
  /\ ((hh_pressure_active w = true /\ hh_pressure_active (step config w ev) = false)
       \/ (ll_tank_level_active w = true /\ ll_tank_level_active (step config w ev) = false) ->
      is_selector_edge ev = true /\ fault_active w = true
      /\ hh_pressure_active (step config w ev) = false
      /\ ll_tank_level_active (step config w ev) = false).
Proof.
  split; [apply fault_checks_keep_hh|]. split; [apply fault_checks_keep_ll|].
  intros Hclear.
  assert (Hsel : is_selector_edge ev = true).
  { destruct (is_selector_edge ev) eqn:Hev; [reflexivity|].
    destruct Hclear as [[Hw Hs]|[Hw Hs]].
    - rewrite step_keeps_hh in Hs by assumption. discriminate.
    - rewrite step_keeps_ll in Hs by assumption. discriminate. }
  assert (Hact : fault_active w = true).
  { unfold fault_active. destruct Hclear as [[Hw _]|[Hw _]]; rewrite Hw;
      [reflexivity | apply orb_true_r]. }
  destruct ev; try discriminate.
  pose proof (selector_edge_cases now w) as Hc. cbv zeta in Hc. rewrite Hact in Hc.
  destruct Hc as (Hh & Hl & _). repeat split; assumption.
Qed.

(** C2, on the code: when one pump reports the pressure code and a pump
    reports the tank code in the same check, the pressure flag is set and
    the tank flag is left as it was. *)
Theorem check_faults_pressure_masks_tank (env : Env) (w : World) :
  pressure_seen config env = true -> tank_seen config env = true ->
  hh_pressure_active (snd (check_faults config env w)) = true
  /\ ll_tank_level_active (snd (check_faults config env w)) = ll_tank_level_active w.
Proof.
  intros Hp Ht. rewrite check_faults_hh, check_faults_ll, Hp, Ht. simpl.
  split; [apply orb_true_r | apply orb_false_r].
Qed.

(** What the check does do: it never clears a flag, sets the pressure flag
    when the pressure code is read, and sets the tank flag when the tank
    code is read and the pressure code is not. *)
Lemma check_faults_only_sets env w :
  let w' := snd (check_faults config env w) in
  fst (check_faults config env w) = Ok tt
  /\ hh_pressure_active w' = hh_pressure_active w || pressure_seen config env
  /\ ll_tank_level_active w'
     = ll_tank_level_active w || (negb (pressure_seen config env) && tank_seen config env).
Proof.
  simpl. rewrite check_faults_ok, check_faults_hh, check_faults_ll. auto.
Qed.

(** *** Start and stop channels *)

Lemma handler_keeps_selection ev :
  is_selector_edge ev = false -> Kept selected_pump (handler config ev).
Proof. destruct ev; try discriminate; intros _; simpl handler; kept. Qed.

Lemma step_valid_selection w ev :
  valid_selection w -> valid_selection (step config w ev).
Proof.
  unfold valid_selection. intros Hw. destruct (is_selector_edge ev) eqn:Hev.
  - destruct ev; try discriminate.
    pose proof (selector_edge_cases now w) as Hc. cbv zeta in Hc.
    destruct (fault_active w).
    + destruct Hc as (_ & _ & _ & _ & ->). exact Hw.
    + tauto.
  - unfold step. rewrite handler_keeps_selection by assumption. exact Hw.
Qed.

Lemma run_valid_selection evs : forall w,
  valid_selection w -> valid_selection (run config w evs).
Proof.
  induction evs as [|ev evs IH]; intros w Hw; simpl; [exact Hw|].
  apply IH, step_valid_selection, Hw.
Qed.

Lemma handler_keeps_first_callback ev :
  is_start_edge ev = false -> Kept start_first_callback (handler config ev).
Proof. destruct ev; try discriminate; intros _; simpl handler; kept. Qed.

Lemma step_first_callback w ev :
  start_first_callback (step config w ev) = start_first_callback w || is_start_edge ev.
Proof.
  destruct (is_start_edge ev) eqn:Hev.
  - destruct ev; try discriminate. unfold step. simpl handler.
    unfold start_pump_callback, bind at 1, get.
    destruct (start_first_callback w) eqn:Hs; simpl.
    + assert (K : Kept start_first_callback
                    (let! pump_number := getSelectedPump in
                     update_pump_state_tag config pump_number 2)) by kept.
      rewrite K. exact Hs.
    + reflexivity.
  - unfold step. rewrite handler_keeps_first_callback by assumption.
    symmetry. apply orb_false_r.
Qed.

Lemma run_first_callback evs : forall w,
  start_first_callback (run config w evs)
  = start_first_callback w || existsb is_start_edge evs.
Proof.
  induction evs as [|ev evs IH]; intros w; simpl.
  - symmetry. apply orb_false_r.
  - rewrite IH, step_first_callback. symmetry. apply orb_assoc.
Qed.

Lemma update_pump_state_tag_writes pump_number state w :
  valid_selection w -> pump_number = selected_pump w ->
  update_pump_state_tag config pump_number state w
  = (Ok tt, set_effects (effects w ++ [SetTag "StateWrite" (VInt state) (selected_app config w)]) w).
Proof.
  intros [H|H] ->; unfold update_pump_state_tag, selected_app; rewrite H; reflexivity.
Qed.

Lemma start_pump_callback_run w :
  valid_selection w ->
  start_pump_callback config w
  = (Ok tt,
     if start_first_callback w
     then set_effects (effects w ++ [SetTag "StateWrite" (VInt 2) (selected_app config w)]) w
     else set_start_first_callback true w).
Proof.
  intros Hv. unfold start_pump_callback.
  rewrite (bind_ok get _ w w w eq_refl).
  destruct (start_first_callback w); cbn [negb].
  - rewrite (bind_ok getSelectedPump _ w (selected_pump w) w eq_refl).
    apply update_pump_state_tag_writes; [exact Hv | reflexivity].
  - reflexivity.
Qed.

Lemma stop_pump_callback_run w :
  valid_selection w ->
  stop_pump_callback config w
  = (Ok tt, set_effects (effects w ++ [SetTag "StateWrite" (VInt 0) (selected_app config w)]) w).
Proof.
  intros Hv. unfold stop_pump_callback.
  rewrite (bind_ok getSelectedPump _ w (selected_pump w) w eq_refl).
  apply update_pump_state_tag_writes; [exact Hv | reflexivity].
Qed.

(** C6. After any history of events since start-up: a start edge writes
    nothing if no start edge came before it, and otherwise writes exactly
    one state-write of the running code 2 to the pump selected at that
    moment; a stop edge writes exactly one state-write of the standby
    code 0 to the selected pump. *)
Theorem start_stop_state_writes (now : Z) (ai : option float) (evs : list Event) :
  let w := run config (initial now ai) evs in
  effects (step config w StartEdge)
  = effects w ++ (if existsb is_start_edge evs
                  then [SetTag "StateWrite" (VInt 2) (selected_app config w)] else [])
  /\ effects (step config w StopEdge)
     = effects w ++ [SetTag "StateWrite" (VInt 0) (selected_app config w)]
  /\ valid_selection w.
Proof.
  intros w.
  assert (Hv : valid_selection w).
  { apply run_valid_selection. left. reflexivity. }
  assert (Hs : start_first_callback w = existsb is_start_edge evs).
  { unfold w. rewrite run_first_callback. reflexivity. }
  split; [|split; [|exact Hv]]; unfold step; simpl handler.
  - rewrite start_pump_callback_run, Hs by exact Hv.
    destruct (existsb is_start_edge evs); simpl; [reflexivity|].
    symmetry. apply app_nil_r.
  - rewrite stop_pump_callback_run by exact Hv. reflexivity.
Qed.

(** *** Subscriber connect *)



(** *** The target-rate step *)

Lemma update_target_rate_missing env w :
  pot_reading env = None \/ last_ai_input w = None ->
  update_target_rate config env w = (Raise TypeError, w).
Proof.
  intros H. unfold update_target_rate.
  rewrite (bind_ok getSelectedPump _ w (selected_pump w) w eq_refl).
  rewrite (bind_ok get _ w w w eq_refl).
  destruct (pot_reading env) as [a|] eqn:Ha.
  - destruct H as [H|H]; [discriminate|]. rewrite H. reflexivity.
  - reflexivity.
Qed.

(** C8, on the code: when the potentiometer reading or the stored
    previous reading is missing, the target-rate step raises TypeError, and
    the tick ends there, in the state the fault check left: the dashboard
    update and the LED update do not run. *)
Theorem missing_reading_aborts_tick (env : Env) (w : World) :
  pot_reading env = None \/ last_ai_input w = None ->
  fst (update_target_rate config env w) = Raise TypeError
  /\ main_loop config env w = (Raise TypeError, snd (check_faults config env w)).
Proof.
  intros H. split.
  - rewrite update_target_rate_missing by exact H. reflexivity.
  - unfold main_loop.
    pose proof (check_faults_ok env w) as Hok.
    destruct (check_faults config env w) as [r w1] eqn:Hc. simpl in Hok. subst r.
    rewrite (bind_ok _ _ w tt w1 Hc).
    apply bind_raise. apply update_target_rate_missing.
    destruct H as [H|H]; [left; exact H | right].
    assert (K : Kept last_ai_input (check_faults config env)) by kept.
    specialize (K w). rewrite Hc in K. simpl in K |- *. rewrite K. exact H.
Qed.




(** *** Solar aggregation *)





(** With a falsy controller array the names of the four aggregates are
    unbound where [update_solar_data] is called. *)
Lemma update_solar_unbound env w :
  solar_controllers_truth config = false ->
  update_solar config env w = (Raise UnboundLocalError, w).
Proof. intros Ht. unfold update_solar. rewrite Ht. reflexivity. Qed.

(** *** The snapshot update, leaf by leaf *)

Lemma setattr_num_same attr d : setattr_num attr (getattr_num attr d) d = d.
Proof. destruct d, attr; reflexivity. Qed.

Lemma setattr_str_same attr d : setattr_str attr (getattr_str attr d) d = d.
Proof. destruct d, attr; reflexivity. Qed.

Lemma bind_Ok_inv {S A B} (m : M S A) (k : A -> M S B) s b s' :
  bind m k s = (Ok b, s') -> exists a s1, m s = (Ok a, s1) /\ k a s1 = (Ok b, s').
Proof.
  unfold bind. destruct (m s) as [[a|e] s1]; [|discriminate].
  intros H. exists a, s1. split; [reflexivity | exact H].
Qed.

Lemma _update_numeric_ok attr v tol d b d' :
  _update_numeric attr v tol d = (Ok b, d') ->
  let u := num_update tol (getattr_num attr d) (Some v) in
  b = given u /\ d' = store_num attr u d.
Proof.
  unfold _update_numeric, num_update, store_num, exceeds. simpl.
  destruct (is_none v) eqn:Hn.
  - destruct v; try discriminate. simpl. intros [= <- <-].
    rewrite setattr_num_same. split; reflexivity.
  - destruct (to_float v) as [new|e].
    + unfold bind, get, modify, ret.
      destruct (isfinite (getattr_num attr d) && isfinite new);
        [destruct (PrimFloat.leb _ tol) | destruct (PrimFloat.eqb _ new)];
        simpl; intros [= <- <-]; rewrite ?setattr_num_same; split; reflexivity.
    + destruct e; try discriminate; intros [= <- <-];
        simpl; rewrite setattr_num_same; split; reflexivity.
Qed.

Lemma update_numeric_key_ok sec key attr tol c d c' d' :
  or_update c (update_numeric_key sec key attr tol) d = (Ok c', d') ->
  exists m, sec = ADict m
    /\ c' = c || given (num_update tol (getattr_num attr d) (m !! key))
    /\ d' = store_num attr (num_update tol (getattr_num attr d) (m !! key)) d.
Proof.
  unfold or_update, update_numeric_key. intros H.
  apply bind_Ok_inv in H as (b & d1 & H & Hr). injection Hr as <- <-.
  apply bind_Ok_inv in H as (v & d0 & Hg & H).
  destruct sec as [m|x]; [|discriminate]. exists m.
  unfold lift_result, dict_get in Hg. injection Hg as <- <-.
  apply _update_numeric_ok in H as [-> ->].
  destruct (m !! key) as [v|]; [split; [reflexivity|split; reflexivity]|].
  simpl. unfold store_num. simpl. split; [reflexivity|split; reflexivity].
Qed.

Lemma update_string_key_ok sec key attr c d c' d' :
  or_update c (update_string_key sec key attr) d = (Ok c', d') ->
  exists m, sec = ADict m
    /\ c' = c || given (str_update (getattr_str attr d) (m !! key))
    /\ d' = store_str attr (str_update (getattr_str attr d) (m !! key)) d.
Proof.
  unfold or_update, update_string_key. intros H.
  apply bind_Ok_inv in H as (b & d1 & H & Hr). injection Hr as <- <-.
  apply bind_Ok_inv in H as (self & d0 & Hs & H). injection Hs as <- <-.
  apply bind_Ok_inv in H as (v & d0 & Hg & H).
  destruct sec as [m|x]; [|discriminate]. exists m.
  unfold lift_result, dict_get in Hg. injection Hg as <- <-.
  unfold _update_string, str_update, store_str in *.
  destruct (m !! key) as [v|].
  - destruct (is_none v).
    + injection H as <- <-. simpl. rewrite setattr_str_same. auto.
    + unfold bind, get, modify, ret in H.
      destruct (String.eqb (getattr_str attr d) (to_str v));
        injection H as <- <-; simpl; rewrite ?setattr_str_same; auto.
  - simpl in H. unfold bind, get, modify, ret in H. rewrite String.eqb_refl in H.
    injection H as <- <-. simpl. rewrite setattr_str_same. auto.
Qed.

Lemma run_leaves_ok sec leaves : forall c d c' d',
  run_leaves sec c leaves d = (Ok c', d') ->
  leaves <> [] ->
  exists m, sec = ADict m /\ (c', d') = apply_leaves m leaves (c, d).
Proof.
  induction leaves as [|leaf rest IH]; intros c d c' d' H Hne; [contradiction|].
  simpl in H. apply bind_Ok_inv in H as (c1 & d1 & H1 & H).
  assert (Hleaf : exists m, sec = ADict m /\ (c1, d1) = apply_leaf m (c, d) leaf).
  { destruct leaf as [key attr tol|key attr]; simpl in H1.
    - apply update_numeric_key_ok in H1 as (m & -> & -> & ->). exists m. auto.
    - apply update_string_key_ok in H1 as (m & -> & -> & ->). exists m. auto. }
  destruct Hleaf as (m & -> & Hst). exists m. split; [reflexivity|].
  unfold apply_leaves. simpl. rewrite <- Hst.
  destruct rest as [|leaf' rest'].
  - injection H as <- <-. reflexivity.
  - apply IH in H as (m' & Hm & H); [|discriminate].
    injection Hm as <-. exact H.
Qed.

Lemma apply_leaves_empty leaves : forall c d,
  apply_leaves ∅ leaves (c, d) = (c, d).
Proof.
  induction leaves as [|leaf rest IH]; intros c d; [reflexivity|].
  unfold apply_leaves in *. simpl.
  destruct leaf as [key attr tol|key attr]; simpl; rewrite lookup_empty; simpl.
  - unfold store_num. simpl. rewrite setattr_num_same, orb_false_r. apply IH.
  - unfold store_str. simpl. rewrite setattr_str_same, orb_false_r. apply IH.
Qed.

(** A section block of [update_from_dict]: the leaves of the section when
    the section is given, nothing otherwise. *)
Lemma section_block_ok data name (body : Arg -> M DashboardData bool) leaves c d c' d' :
  (forall sec d0, body sec d0 = run_leaves sec c leaves d0) ->
  leaves <> [] ->
  match data !! name with Some sec => body sec | None => ret c end d = (Ok c', d') ->
  (c', d') = apply_leaves (section data name) leaves (c, d).
Proof.
  intros Hbody Hne H. unfold section. destruct (data !! name) as [sec|].
  - rewrite Hbody in H. apply run_leaves_ok in H as (m & -> & H); [exact H | exact Hne].
  - injection H as <- <-. symmetry. apply apply_leaves_empty.
Qed.

Lemma bind_ret_r {S A} (m : M S A) s : bind m ret s = m s.
Proof. unfold bind, ret. destruct (m s) as [[a|e] s']; reflexivity. Qed.

Lemma bind_ext {S A B} (m : M S A) (k k' : A -> M S B) s :
  (forall a s', k a s' = k' a s') -> bind m k s = bind m k' s.
Proof. intros H. unfold bind. destruct (m s) as [[a|e] s']; [apply H | reflexivity]. Qed.

Lemma faults_block_ok data c d c' d' :
  match data !! "faults" with
  | Some (ADict faults) =>
      let! changed :=
        match faults !! "hh_pressure" with
        | Some v =>
            let! self := get in
            let new_value := _to_bool v (faults_hh_pressure self) in
            if Bool.eqb (faults_hh_pressure self) new_value then ret c
            else modify (set_faults_hh_pressure new_value) ;;; ret true
        | None => ret c
        end in
      match faults !! "ll_tank_level" with
      | Some v =>
          let! self := get in
          let new_value := _to_bool v (faults_ll_tank_level self) in
          if Bool.eqb (faults_ll_tank_level self) new_value then ret changed
          else modify (set_faults_ll_tank_level new_value) ;;; ret true
      | None => ret changed
      end
  | _ => ret c
  end d = (Ok c', d') ->
  let uh := bool_update (faults_hh_pressure d) (section data "faults" !! "hh_pressure") in
  let ul := bool_update (faults_ll_tank_level d) (section data "faults" !! "ll_tank_level") in
  c' = c || given uh || given ul /\ d' = store_ll ul (store_hh uh d).
Proof.
  unfold section, bool_update, store_ll, store_hh.
  destruct d as [? ? ? ? ? ? ? ? ? ? ? ? ? ? ? ? fh fl].
  destruct (data !! "faults") as [[m|v]|]; cbn -[lookup _to_bool Bool.eqb];
    [| intros [= <- <-]; rewrite !orb_false_r; split; reflexivity ..].
  unfold bind, get, modify, ret. cbn -[lookup _to_bool Bool.eqb].
  destruct (m !! "hh_pressure") as [vh|]; destruct (m !! "ll_tank_level") as [vl|];
    cbn -[_to_bool Bool.eqb];
    repeat (match goal with
            | |- context [Bool.eqb ?a ?b] => destruct (Bool.eqb a b)
            end; cbn -[_to_bool Bool.eqb]);
    intros [= <- <-]; rewrite ?orb_false_r, ?orb_true_r;
    split; reflexivity.
Qed.

Ltac leaves_body :=
  intros; cbn [run_leaves run_leaf];
  repeat (apply bind_ext; intros); symmetry; apply bind_ret_r.

Lemma getattr_num_store_num_eq a u d :
  getattr_num a (store_num a u d) = default (getattr_num a d) u.
Proof. unfold store_num. destruct a; reflexivity. Qed.

Lemma getattr_num_store_num_ne a b u d :
  a <> b -> getattr_num a (store_num b u d) = getattr_num a d.
Proof. unfold store_num. destruct a, b; intros H; try reflexivity; contradiction. Qed.

Lemma getattr_num_store_str a b u d : getattr_num a (store_str b u d) = getattr_num a d.
Proof. destruct a; reflexivity. Qed.

Lemma getattr_str_store_num a b u d : getattr_str a (store_num b u d) = getattr_str a d.
Proof. destruct a; reflexivity. Qed.

Lemma getattr_str_store_str_eq a u d :
  getattr_str a (store_str a u d) = default (getattr_str a d) u.
Proof. unfold store_str. destruct a; reflexivity. Qed.

Lemma getattr_str_store_str_ne a b u d :
  a <> b -> getattr_str a (store_str b u d) = getattr_str a d.
Proof. unfold store_str. destruct a, b; intros H; try reflexivity; contradiction. Qed.

Lemma faults_hh_store_num b u d : faults_hh_pressure (store_num b u d) = faults_hh_pressure d.
Proof. reflexivity. Qed.

Lemma faults_hh_store_str b u d : faults_hh_pressure (store_str b u d) = faults_hh_pressure d.
Proof. reflexivity. Qed.

Lemma faults_ll_store_num b u d :
  faults_ll_tank_level (store_num b u d) = faults_ll_tank_level d.
Proof. reflexivity. Qed.

Lemma faults_ll_store_str b u d :
  faults_ll_tank_level (store_str b u d) = faults_ll_tank_level d.
Proof. reflexivity. Qed.

Lemma timestamp_store_num b u d : timestamp (store_num b u d) = timestamp d.
Proof. reflexivity. Qed.

Lemma timestamp_store_str b u d : timestamp (store_str b u d) = timestamp d.
Proof. reflexivity. Qed.

Lemma getattr_num_store_faults a uh ul d :
  getattr_num a (store_ll ul (store_hh uh d)) = getattr_num a d.
Proof. destruct a; reflexivity. Qed.

Lemma getattr_str_store_faults a uh ul d :
  getattr_str a (store_ll ul (store_hh uh d)) = getattr_str a d.
Proof. destruct a; reflexivity. Qed.

Lemma timestamp_store_faults uh ul d : timestamp (store_ll ul (store_hh uh d)) = timestamp d.
Proof. reflexivity. Qed.

Lemma faults_hh_store_faults uh ul d :
  faults_hh_pressure (store_ll ul (store_hh uh d)) = default (faults_hh_pressure d) uh.
Proof. reflexivity. Qed.

Lemma faults_ll_store_faults uh ul d :
  faults_ll_tank_level (store_ll ul (store_hh uh d)) = default (faults_ll_tank_level d) ul.
Proof. reflexivity. Qed.

Lemma getattr_num_set_timestamp a t d : getattr_num a (set_timestamp t d) = getattr_num a d.
Proof. destruct a; reflexivity. Qed.

Lemma getattr_str_set_timestamp a t d : getattr_str a (set_timestamp t d) = getattr_str a d.
Proof. destruct a; reflexivity. Qed.

#[local] Hint Rewrite getattr_num_store_num_eq getattr_num_store_str getattr_str_store_num
  getattr_str_store_str_eq faults_hh_store_num faults_hh_store_str faults_ll_store_num
  faults_ll_store_str timestamp_store_num timestamp_store_str
  getattr_num_store_faults getattr_str_store_faults
  timestamp_store_faults faults_hh_store_faults faults_ll_store_faults
  getattr_num_set_timestamp getattr_str_set_timestamp : getset.
#[local] Hint Rewrite getattr_num_store_num_ne getattr_str_store_str_ne
  using discriminate : getset.

Ltac block H Hc Hd :=
  cbn [apply_leaves fold_left apply_leaf fst snd] in H;
  apply pair_equal_spec in H as [Hc Hd];
  autorewrite with getset in Hc, Hd.

Ltac chain Hprev Hc Hd :=
  rewrite Hprev in Hc, Hd; autorewrite with getset in Hc, Hd.

Lemma update_from_dict_normal data now d changed d' :
  update_from_dict data now d = (Ok changed, d') ->
  let num attr := num_update (spec_tolerance attr) (getattr_num attr d)
                    (supplied data (num_source attr)) in
  let str attr := str_update (getattr_str attr d) (supplied data (str_source attr)) in
  let uh := bool_update (faults_hh_pressure d) (supplied data ("faults", "hh_pressure")) in
  let ul := bool_update (faults_ll_tank_level d) (supplied data ("faults", "ll_tank_level")) in
  let d7 :=
    store_ll ul (store_hh uh
      (store_str Attr.system_status (str Attr.system_status)
      (store_num Attr.skid_pressure (num Attr.skid_pressure)
      (store_num Attr.skid_flow (num Attr.skid_flow)
      (store_num Attr.tank_level_percent (num Attr.tank_level_percent)
      (store_num Attr.tank_level_mm (num Attr.tank_level_mm)
      (store_num Attr.battery_ah (num Attr.battery_ah)
      (store_num Attr.panel_power (num Attr.panel_power)
      (store_num Attr.battery_percentage (num Attr.battery_percentage)
      (store_num Attr.battery_voltage (num Attr.battery_voltage)
      (store_str Attr.pump2_pump_state (str Attr.pump2_pump_state)
      (store_num Attr.pump2_flow_rate (num Attr.pump2_flow_rate)
      (store_num Attr.pump2_target_rate (num Attr.pump2_target_rate)
      (store_str Attr.pump_state (str Attr.pump_state)
      (store_num Attr.flow_rate (num Attr.flow_rate)
      (store_num Attr.target_rate (num Attr.target_rate) d)))))))))))))))) in
  changed
  = (false || given (num Attr.target_rate) || given (num Attr.flow_rate)
     || given (str Attr.pump_state)
     || given (num Attr.pump2_target_rate) || given (num Attr.pump2_flow_rate)
     || given (str Attr.pump2_pump_state)
     || given (num Attr.battery_voltage) || given (num Attr.battery_percentage)
     || given (num Attr.panel_power) || given (num Attr.battery_ah)
     || given (num Attr.tank_level_mm) || given (num Attr.tank_level_percent)
     || given (num Attr.skid_flow) || given (num Attr.skid_pressure)
     || given (str Attr.system_status) || given uh || given ul)
  /\ d' = if changed then set_timestamp now d7 else d7.
Proof.
  intros H. unfold update_from_dict in H.
  apply bind_Ok_inv in H as (c1 & d1 & H1 & H).
  apply (section_block_ok data "pump" _
           [LNum "target_rate" Attr.target_rate 0.05;
            LNum "flow_rate" Attr.flow_rate 0.05;
            LStr "pump_state" Attr.pump_state]) in H1; [| leaves_body | discriminate].
  block H1 Hc1 Hd1.
  apply bind_Ok_inv in H as (c2 & d2 & H2 & H).
  apply (section_block_ok data "pump2" _
           [LNum "target_rate" Attr.pump2_target_rate 0.05;
            LNum "flow_rate" Attr.pump2_flow_rate 0.05;
            LStr "pump_state" Attr.pump2_pump_state]) in H2; [| leaves_body | discriminate].
  block H2 Hc2 Hd2. chain Hd1 Hc2 Hd2.
  apply bind_Ok_inv in H as (c3 & d3 & H3 & H).
  apply (section_block_ok data "solar" _
           [LNum "battery_voltage" Attr.battery_voltage 0.1;
            LNum "battery_percentage" Attr.battery_percentage 0.2;
            LNum "panel_power" Attr.panel_power 0.1;
            LNum "battery_ah" Attr.battery_ah 0.1]) in H3; [| leaves_body | discriminate].
  block H3 Hc3 Hd3. chain Hd2 Hc3 Hd3.
  apply bind_Ok_inv in H as (c4 & d4 & H4 & H).
  apply (section_block_ok data "tank" _
           [LNum "tank_level_mm" Attr.tank_level_mm 1.0;
            LNum "tank_level_percent" Attr.tank_level_percent 1]) in H4;
    [| leaves_body | discriminate].
  block H4 Hc4 Hd4. chain Hd3 Hc4 Hd4.
  apply bind_Ok_inv in H as (c5 & d5 & H5 & H).
  apply (section_block_ok data "skid" _
           [LNum "skid_flow" Attr.skid_flow 0.1;
            LNum "skid_pressure" Attr.skid_pressure 10]) in H5;
    [| leaves_body | discriminate].
  block H5 Hc5 Hd5. chain Hd4 Hc5 Hd5.
  apply bind_Ok_inv in H as (c6 & d6 & H6 & H).
  apply (section_block_ok data "system" _ [LStr "status" Attr.system_status]) in H6;
    [| leaves_body | discriminate].
  block H6 Hc6 Hd6. chain Hd5 Hc6 Hd6.
  apply bind_Ok_inv in H as (c7 & d7 & H7 & H).
  apply faults_block_ok in H7 as [Hc7 Hd7]. chain Hd6 Hc7 Hd7.
  assert (Hfin : changed = c7 /\ d' = if c7 then set_timestamp now d7 else d7).
  { destruct c7; injection H as <- <-; split; reflexivity. }
  destruct Hfin as [-> ->]. cbv zeta.
  split.
  - rewrite Hc7, Hc6, Hc5, Hc4, Hc3, Hc2, Hc1. reflexivity.
  - rewrite Hd7. reflexivity.
Qed.

(** C4, as the code has it.  When the update returns: every numeric
    attribute holds the supplied value if [num_update] gives one for it
    (the value converts to a float and the test [exceeds] holds for the
    attribute's tolerance) and is untouched otherwise; every string
    attribute holds [str] of the supplied value if that differs from the
    stored string; each fault flag holds the boolean of the supplied value
    if that differs from the stored flag; an absent key, an absent section
    and a [None] value overwrite nothing; the result is true exactly when
    some attribute was overwritten; and the timestamp becomes the update
    time when the result is true and is untouched otherwise. *)
Theorem update_from_dict_policy (data : gmap string Arg) (now : Z)
  (d d' : DashboardData) (changed : bool) :
  update_from_dict data now d = (Ok changed, d') ->
  (forall attr,
     getattr_num attr d'
     = default (getattr_num attr d)
         (num_update (spec_tolerance attr) (getattr_num attr d)
            (supplied data (num_source attr))))
  /\ (forall attr,
        getattr_str attr d'
        = default (getattr_str attr d)
            (str_update (getattr_str attr d) (supplied data (str_source attr))))
  /\ faults_hh_pressure d'
     = default (faults_hh_pressure d)
         (bool_update (faults_hh_pressure d) (supplied data ("faults", "hh_pressure")))
  /\ faults_ll_tank_level d'
     = default (faults_ll_tank_level d)
         (bool_update (faults_ll_tank_level d) (supplied data ("faults", "ll_tank_level")))
  /\ changed
     = existsb (num_overwritten data d) all_num || existsb (str_overwritten data d) all_str
       || hh_overwritten data d || ll_overwritten data d
  /\ timestamp d' = (if changed then now else timestamp d).
Proof.
  intros H. apply update_from_dict_normal in H as [Hc Hd]. cbv zeta in Hc, Hd.
  assert (Hts : forall (c : bool) x, timestamp (if c then set_timestamp now x else x)
                                = if c then now else timestamp x).
  { intros [] x; reflexivity. }
  assert (Hn : forall attr (c : bool) x,
             getattr_num attr (if c then set_timestamp now x else x) = getattr_num attr x).
  { intros attr [] x; [apply getattr_num_set_timestamp | reflexivity]. }
  assert (Hs : forall attr (c : bool) x,
             getattr_str attr (if c then set_timestamp now x else x) = getattr_str attr x).
  { intros attr [] x; [apply getattr_str_set_timestamp | reflexivity]. }
  assert (Hh : forall (c : bool) x,
             faults_hh_pressure (if c then set_timestamp now x else x) = faults_hh_pressure x).
  { intros [] x; reflexivity. }
  assert (Hl : forall (c : bool) x,
             faults_ll_tank_level (if c then set_timestamp now x else x)
             = faults_ll_tank_level x).
  { intros [] x; reflexivity. }
  split; [|split; [|split; [|split; [|split]]]].
  - intros attr. rewrite Hd, Hn.
    destruct attr; autorewrite with getset; reflexivity.
  - intros attr. rewrite Hd, Hs.
    destruct attr; autorewrite with getset; reflexivity.
  - rewrite Hd, Hh. autorewrite with getset. reflexivity.
  - rewrite Hd, Hl. autorewrite with getset. reflexivity.
  - rewrite Hc. unfold hh_overwritten, ll_overwritten.
    cbn [existsb all_num all_str]. unfold num_overwritten, str_overwritten.
    repeat match goal with
           | |- context [given ?u] =>
               let b := fresh "b" in set (b := given u); clearbody b
           end.
    btauto.
  - rewrite Hd, Hts. autorewrite with getset. reflexivity.
Qed.

(** *** When the snapshot update returns and when it raises *)

Lemma to_float_raises v e :
  to_float v = Raise e -> e = TypeError \/ e = ValueError \/ e = OverflowError.
Proof.
  destruct v as [|b|n|x|s|r t]; simpl; try discriminate; try (intros [= <-]; tauto).
  - unfold float_of_int. destruct (PrimFloat.is_infinity _); [|discriminate].
    intros [= <-]. tauto.
  - destruct (float_of_str s); [discriminate|]. intros [= <-]. tauto.
Qed.

Lemma _update_numeric_returns attr v tol d :
  ~ overflows v -> exists b d', _update_numeric attr v tol d = (Ok b, d').
Proof.
  unfold overflows, _update_numeric. intros Hv.
  destruct (is_none v); [eexists _, _; reflexivity|].
  destruct (to_float v) as [new|e] eqn:E.
  - unfold bind, get, modify, ret.
    destruct (isfinite (getattr_num attr d) && isfinite new);
      [destruct (PrimFloat.leb _ tol) | destruct (PrimFloat.eqb _ new)];
      eexists _, _; reflexivity.
  - destruct (to_float_raises v e E) as [-> | [-> | ->]];
      [eexists _, _; reflexivity | eexists _, _; reflexivity | contradiction].
Qed.

Lemma run_leaf_returns m c leaf d :
  (forall key attr tol v, leaf = LNum key attr tol -> m !! key = Some v -> ~ overflows v) ->
  exists c' d', run_leaf (ADict m) c leaf d = (Ok c', d').
Proof.
  intros Hv. destruct leaf as [key attr tol|key attr]; simpl.
  - unfold or_update, update_numeric_key, dict_get, lift_result, bind. cbv beta iota.
    set (value := match m !! key with Some v => v | None => VNone end).
    destruct (_update_numeric_returns attr value tol d) as (b & d' & H).
    { unfold value. destruct (m !! key) as [v|] eqn:E;
        [apply (Hv key attr tol v eq_refl E) | discriminate]. }
    rewrite H. eexists _, _; reflexivity.
  - unfold or_update, update_string_key, _update_string, dict_get, bind, get, lift_result,
      modify, ret.
    destruct (is_none _); [eexists _, _; reflexivity|].
    destruct (String.eqb _ _); eexists _, _; reflexivity.
Qed.

Lemma run_leaves_returns m leaves :
  (forall key attr tol v, In (LNum key attr tol) leaves -> m !! key = Some v -> ~ overflows v) ->
  forall c d, exists c' d', run_leaves (ADict m) c leaves d = (Ok c', d').
Proof.
  induction leaves as [|leaf rest IH]; intros Hv c d; [eexists _, _; reflexivity|].
  destruct (run_leaf_returns m c leaf d) as (c1 & d1 & H1).
  { intros key attr tol v -> E. apply (Hv key attr tol v); [left; reflexivity | exact E]. }
  destruct (IH (fun key attr tol v Hin => Hv key attr tol v (or_intror Hin)) c1 d1)
    as (c2 & d2 & H2).
  exists c2, d2. simpl. rewrite (bind_ok _ _ d c1 d1 H1). exact H2.
Qed.

Lemma section_block_returns data name (body : Arg -> M DashboardData bool) leaves c d :
  (forall sec d0, body sec d0 = run_leaves sec c leaves d0) ->
  (forall v, data !! name <> Some (AVal v)) ->
  (forall key attr tol v,
     In (LNum key attr tol) leaves -> section data name !! key = Some v -> ~ overflows v) ->
  exists c' d',
    match data !! name with Some sec => body sec | None => ret c end d = (Ok c', d').
Proof.
  intros Hbody Hdict Hv. unfold section in Hv.
  destruct (data !! name) as [[m|v]|].
  - rewrite Hbody. apply run_leaves_returns. exact Hv.
  - destruct (Hdict v eq_refl).
  - eexists _, _; reflexivity.
Qed.

Lemma faults_block_returns (data : gmap string Arg) c d :
  exists c' d',
    match data !! "faults" with
    | Some (ADict faults) =>
        let! changed :=
          match faults !! "hh_pressure" with
          | Some v =>
              let! self := get in
              let new_value := _to_bool v (faults_hh_pressure self) in
              if Bool.eqb (faults_hh_pressure self) new_value then ret c
              else modify (set_faults_hh_pressure new_value) ;;; ret true
          | None => ret c
          end in
        match faults !! "ll_tank_level" with
        | Some v =>
            let! self := get in
            let new_value := _to_bool v (faults_ll_tank_level self) in
            if Bool.eqb (faults_ll_tank_level self) new_value then ret changed
            else modify (set_faults_ll_tank_level new_value) ;;; ret true
        | None => ret changed
        end
    | _ => ret c
    end d = (Ok c', d').
Proof.
  destruct (data !! "faults") as [[m|v]|]; try (eexists _, _; reflexivity).
  unfold bind, get, modify, ret.
  destruct (m !! "hh_pressure") as [vh|]; destruct (m !! "ll_tank_level") as [vl|];
    cbn -[_to_bool Bool.eqb];
    repeat (match goal with
            | |- context [Bool.eqb ?a ?b] => destruct (Bool.eqb a b)
            end; cbn -[_to_bool Bool.eqb]);
    eexists _, _; reflexivity.
Qed.

Ltac leaf_in_range Hv :=
  let Hin := fresh in let E := fresh in
  intros ? ? ? ? Hin E; simpl in Hin;
  repeat (destruct Hin as [Hin|Hin]; [try discriminate; injection Hin as <- <- <- |]);
  try contradiction;
  match goal with
  | |- ~ overflows ?v =>
      first [ apply (Hv Attr.target_rate v E) | apply (Hv Attr.flow_rate v E)
            | apply (Hv Attr.pump2_target_rate v E) | apply (Hv Attr.pump2_flow_rate v E)
            | apply (Hv Attr.battery_voltage v E) | apply (Hv Attr.battery_percentage v E)
            | apply (Hv Attr.panel_power v E) | apply (Hv Attr.battery_ah v E)
            | apply (Hv Attr.tank_level_mm v E) | apply (Hv Attr.tank_level_percent v E)
            | apply (Hv Attr.skid_flow v E) | apply (Hv Attr.skid_pressure v E) ]
  end.

(** The update returns whenever the six sections, where given, are dicts
    and no numeric leaf is an int beyond the float range. *)
Lemma update_from_dict_returns data now d :
  (forall name v, In name dict_sections -> data !! name <> Some (AVal v)) ->
  (forall attr v, supplied data (num_source attr) = Some v -> ~ overflows v) ->
  exists changed d', update_from_dict data now d = (Ok changed, d').
Proof.
  intros Hd Hv. unfold update_from_dict.
  edestruct (section_block_returns data "pump") as (c1 & d1 & H1);
    [ | | | rewrite (bind_ok _ _ d c1 d1 H1) ];
    [ instantiate (1 := [LNum "target_rate" Attr.target_rate 0.05;
                         LNum "flow_rate" Attr.flow_rate 0.05;
                         LStr "pump_state" Attr.pump_state]); leaves_body
    | intros v; apply Hd; simpl; tauto
    | leaf_in_range Hv | ].
  edestruct (section_block_returns data "pump2") as (c2 & d2 & H2);
    [ | | | rewrite (bind_ok _ _ d1 c2 d2 H2) ];
    [ instantiate (1 := [LNum "target_rate" Attr.pump2_target_rate 0.05;
                         LNum "flow_rate" Attr.pump2_flow_rate 0.05;
                         LStr "pump_state" Attr.pump2_pump_state]); leaves_body
    | intros v; apply Hd; simpl; tauto
    | leaf_in_range Hv | ].
  edestruct (section_block_returns data "solar") as (c3 & d3 & H3);
    [ | | | rewrite (bind_ok _ _ d2 c3 d3 H3) ];
    [ instantiate (1 := [LNum "battery_voltage" Attr.battery_voltage 0.1;
                         LNum "battery_percentage" Attr.battery_percentage 0.2;
                         LNum "panel_power" Attr.panel_power 0.1;
                         LNum "battery_ah" Attr.battery_ah 0.1]); leaves_body
    | intros v; apply Hd; simpl; tauto
    | leaf_in_range Hv | ].
  edestruct (section_block_returns data "tank") as (c4 & d4 & H4);
    [ | | | rewrite (bind_ok _ _ d3 c4 d4 H4) ];
    [ instantiate (1 := [LNum "tank_level_mm" Attr.tank_level_mm 1.0;
                         LNum "tank_level_percent" Attr.tank_level_percent 1]); leaves_body
    | intros v; apply Hd; simpl; tauto
    | leaf_in_range Hv | ].
  edestruct (section_block_returns data "skid") as (c5 & d5 & H5);
    [ | | | rewrite (bind_ok _ _ d4 c5 d5 H5) ];
    [ instantiate (1 := [LNum "skid_flow" Attr.skid_flow 0.1;
                         LNum "skid_pressure" Attr.skid_pressure 10]); leaves_body
    | intros v; apply Hd; simpl; tauto
    | leaf_in_range Hv | ].
  edestruct (section_block_returns data "system") as (c6 & d6 & H6);
    [ | | | rewrite (bind_ok _ _ d5 c6 d6 H6) ];
    [ instantiate (1 := [LStr "status" Attr.system_status]); leaves_body
    | intros v; apply Hd; simpl; tauto
    | leaf_in_range Hv | ].
  destruct (faults_block_returns data c6 d6) as (c7 & d7 & H7).
  rewrite (bind_ok _ _ d6 c7 d7 H7).
  destruct c7; eexists _, _; reflexivity.
Qed.

(** C10, on the code: an int leaf beyond the float range is not
    convertible to a float, [float()] raises OverflowError for it, the
    handler of [_update_numeric] catches only TypeError and ValueError,
    and the exception leaves [update_from_dict]. *)
Theorem update_from_dict_huge_int_raises (now : Z) (d : DashboardData) :
  let data : gmap string Arg := {[ "pump" := ADict {[ "target_rate" := VInt (10 ^ 400) ]} ]} in
  overflows (VInt (10 ^ 400))
  /\ (forall name v, In name dict_sections -> data !! name <> Some (AVal v))
  /\ update_from_dict data now d = (Raise OverflowError, d).
Proof.
  cbv zeta. split; [vm_compute; reflexivity|]. split.
  - intros name v Hin. simpl in Hin.
    repeat (destruct Hin as [<-|Hin]; [vm_compute; discriminate|]). contradiction.
  - vm_compute. reflexivity.
Qed.

(** *** What the leaf updates decide *)

(** An absent value and [None] overwrite nothing. *)
Lemma num_update_missing tol cur :
  num_update tol cur None = None /\ num_update tol cur (Some VNone) = None.
Proof. split; reflexivity. Qed.

Lemma str_update_missing cur :
  str_update cur None = None /\ str_update cur (Some VNone) = None.
Proof. split; reflexivity. Qed.

(** A numeric attribute is overwritten only with the float of the supplied
    value, and only when the test [exceeds] holds. *)
Lemma num_update_overwrites tol cur value new :
  num_update tol cur value = Some new ->
  exists v, value = Some v /\ to_float v = Ok new /\ exceeds tol cur new = true.
Proof.
  unfold num_update. destruct value as [v|]; [|discriminate].
  destruct (to_float v) as [x|e] eqn:Ef; [|discriminate].
  destruct (exceeds tol cur x) eqn:E; [|discriminate].
  intros [= <-]. exists v. repeat split; assumption.
Qed.

(** Between finite floats the test is the tolerance test. *)
Lemma exceeds_finite tol cur new :
  isfinite cur = true -> isfinite new = true ->
  exceeds tol cur new = negb (PrimFloat.leb (PrimFloat.abs (PrimFloat.sub cur new)) tol).
Proof. intros Hc Hn. unfold exceeds. rewrite Hc, Hn. reflexivity. Qed.

(** With a difference and a tolerance that are numbers it is
    [abs(cur - new) > tol]. *)
Lemma exceeds_finite_gt tol cur new :
  isfinite cur = true -> isfinite new = true ->
  PrimFloat.is_nan tol = false ->
  PrimFloat.is_nan (PrimFloat.abs (PrimFloat.sub cur new)) = false ->
  exceeds tol cur new = PrimFloat.ltb tol (PrimFloat.abs (PrimFloat.sub cur new)).
Proof.
  intros Hc Hn Ht Hd. rewrite exceeds_finite by assumption. apply not_leb_ltb; assumption.
Qed.

(** A NaN passes the test against every stored value. *)
Lemma exceeds_nan tol cur : exceeds tol cur nan = true.
Proof.
  unfold exceeds. replace (isfinite nan) with false by reflexivity.
  rewrite andb_false_r, FloatAxioms.eqb_spec.
  replace (Prim2SF nan) with S754_nan by reflexivity.
  destruct (Prim2SF cur); reflexivity.
Qed.

End Properties.

(** * Concrete runs *)

Lemma fault_flags_sticky_witness :
  let w := set_hh_pressure_active true started in
  hh_pressure_active (fault_checks (RT:=plain_runtime) site w [no_faults; no_faults]) = true
  /\ is_selector_edge (SelectorEdge 9) = true
  /\ hh_pressure_active (step (RT:=plain_runtime) site w (SelectorEdge 9)) = false
  /\ ll_tank_level_active (step (RT:=plain_runtime) site w (SelectorEdge 9)) = false.
Proof.
  cbv zeta.
  destruct (fault_flags_sticky (RT:=plain_runtime) site (set_hh_pressure_active true started)
              [no_faults; no_faults] (SelectorEdge 9)) as (H1 & _ & H3).
  split; [apply H1; reflexivity|].
  destruct H3 as (Hs & _ & Hh & Hl); [left; split; vm_compute; reflexivity|].
  split; [exact Hs | split; [exact Hh | exact Hl]].
Defined.

Lemma check_faults_pressure_masks_tank_witness :
  hh_pressure_active (snd (check_faults (RT:=plain_runtime) site both_faults started)) = true
  /\ ll_tank_level_active (snd (check_faults (RT:=plain_runtime) site both_faults started))
     = false.
Proof.
  apply (check_faults_pressure_masks_tank (RT:=plain_runtime) site both_faults started);
    reflexivity.
Defined.

Lemma missing_reading_aborts_tick_witness :
  fst (update_target_rate site no_pot_reading started) = Raise TypeError
  /\ main_loop (RT:=plain_runtime) site no_pot_reading started
     = (Raise TypeError, snd (check_faults (RT:=plain_runtime) site no_pot_reading started)).
Proof.
  apply (missing_reading_aborts_tick (RT:=plain_runtime) site no_pot_reading started).
  left. reflexivity.
Defined.

(** With the reading present the same tick goes on to the dashboard update
    and the LED update; without it nothing after the fault check happens. *)
Example tick_with_and_without_reading :
  let present := reading [("StateString", "pump_1", VStr "pumping")] (Some 13%float) in
  let after := snd (main_loop (RT:=plain_runtime) site present started) in
  let aborted := snd (main_loop (RT:=plain_runtime) site no_pot_reading started) in
  effects after = [SetTag "TargetRatePercentage" (VFloat 52) "pump_1"; SetDO 1 true]
  /\ pump_state (data after) = "pumping"
  /\ effects aborted = []
  /\ pump_state (data aborted) = "standby".
Proof. vm_compute. repeat split; reflexivity. Qed.

(** C4 fails as stated: a NaN supplied for a numeric field overwrites it
    and the update returns true, although [abs(new - old) > tolerance] is
    false for it. *)
Lemma nan_overwrites_within_no_tolerance :
  update_from_dict (RT:=plain_runtime) (pump_target (VFloat nan)) 7 at_ten
  = (Ok true, set_timestamp 7 (setattr_num Attr.target_rate nan at_ten))
  /\ PrimFloat.ltb 0.05 (PrimFloat.abs (PrimFloat.sub nan (target_rate at_ten))) = false.
Proof. split; vm_compute; reflexivity. Qed.

Lemma update_from_dict_policy_witness :
  let d' := set_timestamp 7 (setattr_num Attr.target_rate 10.06 at_ten) in
  update_from_dict (RT:=plain_runtime) (pump_target (VFloat 10.06)) 7 at_ten = (Ok true, d')
  /\ target_rate d' = 10.06%float
  /\ timestamp d' = 7.
Proof.
  cbv zeta.
  assert (H : update_from_dict (RT:=plain_runtime) (pump_target (VFloat 10.06)) 7 at_ten
              = (Ok true, set_timestamp 7 (setattr_num Attr.target_rate 10.06 at_ten)))
    by (vm_compute; reflexivity).
  split; [exact H|].
  destruct (update_from_dict_policy (RT:=plain_runtime) _ _ _ _ _ H) as (Hn & _ & _ & _ & _ & Ht).
  split; [reflexivity | exact Ht].
Defined.

(** Section 8 of the specification: after 10.00, a target rate of 10.04
    changes nothing and leaves the timestamp; 10.06 is stored and moves
    the timestamp. *)
Example tolerance_of_target_rate :
  update_from_dict (RT:=plain_runtime) (pump_target (VFloat 10.04)) 7 at_ten = (Ok false, at_ten)
  /\ update_from_dict (RT:=plain_runtime) (pump_target (VFloat 10.06)) 7 at_ten
     = (Ok true, set_timestamp 7 (setattr_num Attr.target_rate 10.06 at_ten)).
Proof. split; vm_compute; reflexivity. Qed.

(** An absent section, an absent key and [None] leave the snapshot alone. *)
Example missing_values_overwrite_nothing :
  update_from_dict (RT:=plain_runtime) ∅ 7 at_ten = (Ok false, at_ten)
  /\ update_from_dict (RT:=plain_runtime) {[ "pump" := ADict ∅ ]} 7 at_ten = (Ok false, at_ten)
  /\ update_from_dict (RT:=plain_runtime) (pump_target VNone) 7 at_ten = (Ok false, at_ten).
Proof. repeat split; vm_compute; reflexivity. Qed.

(** A string that does not parse is skipped; an int beyond the float range
    is not. *)
Example unconvertible_leaves :
  update_from_dict (RT:=plain_runtime) (pump_target (VStr "n/a")) 7 at_ten = (Ok false, at_ten)
  /\ update_from_dict (RT:=plain_runtime) (pump_target (VObj "[]" false)) 7 at_ten
     = (Ok false, at_ten)
  /\ update_from_dict (RT:=plain_runtime) (pump_target (VInt (10 ^ 400))) 7 at_ten
     = (Raise OverflowError, at_ten).
Proof. repeat split; vm_compute; reflexivity. Qed.

(** The heartbeat loop moves the timestamp with no field changed. *)
Example heartbeat_moves_timestamp :
  let w := snd (_background_updates (RT:=plain_runtime) 99 started) in
  timestamp (data w) = 99 /\ target_rate (data w) = target_rate (data started).
Proof. split; reflexivity. Qed.



(** Section 8 of the specification: from a stored 12.0, a reading of 12.1
    is suppressed and a reading of 13.0 is not. *)
Example band_around_twelve :
  update_target_rate site (at_25_volts (Some 12.1%float)) started = (Ok tt, started)
  /\ update_target_rate site (at_25_volts (Some 13%float)) started
     = (Ok tt,
        set_last_ai_input (Some 13%float)
          (set_effects [SetTag "TargetRatePercentage" (VFloat 52) "pump_1"] started)).
Proof. split; vm_compute; reflexivity. Qed.

(** The stored reading is the one last written, not the one last read:
    12.1 is suppressed and 12.0 stays stored, so 12.2 is written although
    it is within one percent of the reading before it. *)
Example drift_is_measured_from_last_write :
  let w1 := snd (update_target_rate site (at_25_volts (Some 12.1%float)) started) in
  last_ai_input w1 = Some 12%float
  /\ effects (snd (update_target_rate site (at_25_volts (Some 12.2%float)) w1))
     = [SetTag "TargetRatePercentage" (VFloat 48.8) "pump_1"].
Proof. split; vm_compute; reflexivity. Qed.


(** No controller configured: all four aggregates are 0.0. *)
Example no_controllers :
  let bare := {| pump_1 := "pump_1"; pump_2 := "pump_2";
                 pump_1_start_LED_pin := 1; pump_1_fault_LED_pin := 2;
                 pump_2_start_LED_pin := 3; pump_2_fault_LED_pin := 4;
                 solar_controllers_truth := true; solar_controllers := [];
                 flow_sensor_app := "flow"; pressure_sensor_app := "pressure";
                 tank_level_app := None |} in
  solar_aggregate (RT:=plain_runtime) bare two_controllers
  = Ok (0%float, 0%float, 0%float, 0%float).
Proof. reflexivity. Qed.

(** A negative panel average is reported as 0.0. *)
Example negative_panel_voltage :
  solar_aggregate (RT:=plain_runtime) site
    (reading [("panel_voltage", "solar_1", VFloat (-3)); ("panel_voltage", "solar_2", VFloat 1)]
             None)
  = Ok (0%float, 0%float, 0%float, 0%float).
Proof. vm_compute. reflexivity. Qed.

(** Section 8 of the specification: the first start edge writes nothing,
    the second writes the running code to the selected pump, and toggling
    in between moves the write to pump 2. *)
Example start_edges :
  effects (run (RT:=plain_runtime) site started [StartEdge]) = []
  /\ effects (run (RT:=plain_runtime) site started [StartEdge; StartEdge])
     = [SetTag "StateWrite" (VInt 2) "pump_1"]
  /\ effects (run (RT:=plain_runtime) site started [StartEdge; SelectorEdge 3; StartEdge; StopEdge])
     = [Emit ToAll "pump_selection_changed" (selection_payload (RT:=plain_runtime) 2 3);
        SetTag "StateWrite" (VInt 2) "pump_2";
        SetTag "StateWrite" (VInt 0) "pump_2"].
Proof. repeat split; vm_compute; reflexivity. Qed.
